(** * Flashcard generator: response parsing and the API-key gate

    A shallow embedding of the two TypeScript entry points of the
    repository, [src/index.tsx] and the second, modal-based variant of
    the same page ([src/unnamed/part_000]).  Both contain the same
    response parser; they differ in how the API key is asked for and in
    what happens to it when the service rejects it.

    JavaScript strings are sequences of UTF-16 code units; they are
    modelled as [list N].  Operations that can raise (reading a property
    of [undefined], the client constructor, the awaited request) return
    a [completion]. *)

From Stdlib Require Import NArith List Ascii String Bool Lia DecimalString DecimalNat.
From stdpp Require Import gmap.
Import ListNotations.

Local Open Scope N_scope.
Local Open Scope list_scope.

(** ** JavaScript strings *)

Abbreviation jsstring := (list N).

(** An ASCII literal as a sequence of code units. *)
Definition str (s : string) : jsstring :=
  map N_of_ascii (list_ascii_of_string s).

Definition LF : N := 10.
Definition SPACE : N := 32.
Definition QUOTE : N := 34.
Definition COLON : N := 58.

(** ECMAScript WhiteSpace and LineTerminator code points, the ones
    [String.prototype.trim] strips.  All of them are in the basic
    multilingual plane, so working on code units is exact. *)
Definition isWhiteSpace (c : N) : bool :=
  (c =? 0x9) || (c =? 0xA) || (c =? 0xB) || (c =? 0xC) || (c =? 0xD)
  || (c =? 0x20) || (c =? 0xA0) || (c =? 0x1680)
  || ((0x2000 <=? c) && (c <=? 0x200A))
  || (c =? 0x2028) || (c =? 0x2029) || (c =? 0x202F) || (c =? 0x205F)
  || (c =? 0x3000) || (c =? 0xFEFF).

Fixpoint trimStart (s : jsstring) : jsstring :=
  match s with
  | [] => []
  | c :: s' => if isWhiteSpace c then trimStart s' else s
  end.

Definition trimEnd (s : jsstring) : jsstring := rev (trimStart (rev s)).

(** [s.trim()] *)
Definition trim (s : jsstring) : jsstring := trimEnd (trimStart s).

(** A string in a boolean position: only the empty string is falsy. *)
Definition truthy (s : jsstring) : bool :=
  match s with [] => false | _ :: _ => true end.

(** [s.split(sep)] for a separator of one code unit.  The result is
    never empty: the empty string splits into one empty segment. *)
Fixpoint split (sep : N) (s : jsstring) : list jsstring :=
  match s with
  | [] => [[]]
  | c :: s' =>
      if c =? sep then [] :: split sep s'
      else match split sep s' with
           | [] => [[c]]
           | p :: ps => (c :: p) :: ps
           end
  end.

(** [parts.join(sep)] for a separator of one code unit. *)
Fixpoint join (sep : N) (parts : list jsstring) : jsstring :=
  match parts with
  | [] => []
  | p :: ps =>
      match ps with
      | [] => p
      | _ :: _ => p ++ sep :: join sep ps
      end
  end.

(** [parts.slice(start)] *)
Definition slice {A : Type} (start : nat) (parts : list A) : list A :=
  skipn start parts.

Fixpoint startsWith (needle s : jsstring) : bool :=
  match needle, s with
  | [], _ => true
  | _ :: _, [] => false
  | a :: needle', b :: s' => (a =? b) && startsWith needle' s'
  end.

(** [s.includes(needle)] *)
Fixpoint includes (needle s : jsstring) : bool :=
  startsWith needle s
  || match s with
     | [] => false
     | _ :: s' => includes needle s'
     end.

(** ** Abrupt completion *)

(** What the [catch] blocks read from a thrown value: its [message]
    property, when it has one. *)
Record exn := Exn { message : option jsstring }.

Inductive completion (A : Type) : Type :=
  | Normal (a : A)
  | Throw (e : exn).
Arguments Normal {A} a.
Arguments Throw {A} e.

Definition bind {A B : Type} (c : completion A) (k : A -> completion B)
  : completion B :=
  match c with
  | Normal a => k a
  | Throw e => Throw e
  end.

Notation "'let!' x ':=' c 'in' k" := (bind c (fun x => k))
  (at level 10, x name, c at level 100, k at level 200).

(** [xs.map(f)] when the callback can raise: the callbacks run in index
    order and the first exception abandons the call. *)
Fixpoint mapM {A B : Type} (f : A -> completion B) (xs : list A)
  : completion (list B) :=
  match xs with
  | [] => Normal []
  | x :: xs' =>
      let! y := f x in
      let! ys := mapM f xs' in
      Normal (y :: ys)
  end.

(** [xs[i].trim()]: an index out of range reads [undefined], and calling
    a method on it is a TypeError. *)
Definition trimAt (parts : list jsstring) (i : nat) : completion jsstring :=
  match nth_error parts i with
  | Some p => Normal (trim p)
  | None =>
      Throw (Exn (Some (str
        "Cannot read properties of undefined (reading 'trim')")))
  end.

(** ** The response parser (index.tsx 179-194, part_000 148-161) *)

Record Flashcard := { term : jsstring; definition : jsstring }.

(** The callback given to [map]: a card, or [null] for a line that is
    not a pair. *)
Definition parseLine (line : jsstring) : completion (option Flashcard) :=
  let parts := split COLON line in
  if (2 <=? length parts)%nat then
    let! t := trimAt parts 0 in
    if truthy t then
      let! term := trimAt parts 0 in
      let definition := trim (join COLON (slice 1 parts)) in
      if truthy definition then
        Normal (Some {| term := term; definition := definition |})
      else Normal None
    else Normal None
  else Normal None.

(** [.filter((card) => card !== null)] *)
Fixpoint filterNotNull {A : Type} (xs : list (option A)) : list A :=
  match xs with
  | [] => []
  | Some x :: xs' => x :: filterNotNull xs'
  | None :: xs' => filterNotNull xs'
  end.

Definition parseResponse (responseText : jsstring)
  : completion (list Flashcard) :=
  let! cards := mapM parseLine (split LF responseText) in
  Normal (filterNotNull cards).

(** ** The upstream completion service *)

(** The argument of [ai.models.generateContent]. *)
Record GenerateContentParameters :=
  { model : jsstring; contents : jsstring }.

(** How the awaited promise settles: with a response whose [text] may be
    [undefined], or with a rejection. *)
Inductive settled :=
  | Fulfilled (text : option jsstring)
  | Rejected (error : exn).

(** An [async] handler runs up to its single [await] and is resumed when
    the promise settles.  [Finished] is a run that returned before
    reaching the [await]: no request left the page. *)
Inductive started (State Client : Type) :=
  | Finished (st : State)
  | Awaiting (st : State) (client : Client)
             (request : GenerateContentParameters).
Arguments Finished {State Client} st.
Arguments Awaiting {State Client} st client request.

(** A stubbed service that settles every request the same way. *)
Definition stub {Client : Type} (r : settled)
  : Client -> GenerateContentParameters -> settled :=
  fun _ _ => r.

Definition API_KEY_SESSION_STORAGE_KEY : jsstring := str "GEMINI_API_KEY".

Definition card (t d : string) : Flashcard :=
  {| term := str t; definition := str d |}.

Definition DEFAULT_FLASHCARDS : list Flashcard :=
  [ card "Mercury"
      "The smallest planet in our solar system and nearest to the Sun.";
    card "Venus"
      "The second planet from the Sun, known for its thick, toxic atmosphere.";
    card "Earth" "Our home planet, the only place known to harbor life.";
    {| term := str "Mars";
       definition := str "The " ++ [QUOTE] ++ str "Red Planet,"
                     ++ [QUOTE] ++ str " known for its iron oxide-rich soil." |};
    card "Jupiter" "The largest planet, a gas giant with a Great Red Spot.";
    card "Saturn"
      "Known for its spectacular ring system, composed mostly of ice particles." ].

(** [(error as Error)?.message || 'An unknown error occurred'] *)
Definition messageOr (e : exn) : jsstring :=
  match message e with
  | Some m => if truthy m then m else str "An unknown error occurred"
  | None => str "An unknown error occurred"
  end.

Definition INVALID_KEY_MARKER : jsstring := str "API key not valid".

(** ** src/index.tsx: the key form is a section of the page *)

Module IndexTsx.
#[local] Set Implicit Arguments.
Section Page.

(** The client library: the class and what its constructor does with a
    given key (it may raise). *)
Variable GoogleGenAI : Type.
Variable newGoogleGenAI : jsstring -> completion GoogleGenAI.

(** The module-level variable [ai], the session store and the parts of
    the document the handlers read or write. *)
Record State := {
  ai : option GoogleGenAI;
  sessionStorage : gmap jsstring jsstring;
  topicInput : jsstring;
  apiKeyInput : jsstring;
  errorMessage : jsstring;
  flashcardsContainer : list Flashcard;
  exampleMessage_hidden : bool;
  apiKeySection_hidden : bool;
  appContent_hidden : bool;
  generateButton_disabled : bool;
  console_error : list exn
}.

Definition set_ai v st :=
  {| ai := v; sessionStorage := sessionStorage st;
     topicInput := topicInput st; apiKeyInput := apiKeyInput st;
     errorMessage := errorMessage st;
     flashcardsContainer := flashcardsContainer st;
     exampleMessage_hidden := exampleMessage_hidden st;
     apiKeySection_hidden := apiKeySection_hidden st;
     appContent_hidden := appContent_hidden st;
     generateButton_disabled := generateButton_disabled st;
     console_error := console_error st |}.

Definition set_sessionStorage v st :=
  {| ai := ai st; sessionStorage := v;
     topicInput := topicInput st; apiKeyInput := apiKeyInput st;
     errorMessage := errorMessage st;
     flashcardsContainer := flashcardsContainer st;
     exampleMessage_hidden := exampleMessage_hidden st;
     apiKeySection_hidden := apiKeySection_hidden st;
     appContent_hidden := appContent_hidden st;
     generateButton_disabled := generateButton_disabled st;
     console_error := console_error st |}.

Definition set_topicInput v st :=
  {| ai := ai st; sessionStorage := sessionStorage st;
     topicInput := v; apiKeyInput := apiKeyInput st;
     errorMessage := errorMessage st;
     flashcardsContainer := flashcardsContainer st;
     exampleMessage_hidden := exampleMessage_hidden st;
     apiKeySection_hidden := apiKeySection_hidden st;
     appContent_hidden := appContent_hidden st;
     generateButton_disabled := generateButton_disabled st;
     console_error := console_error st |}.

Definition set_apiKeyInput v st :=
  {| ai := ai st; sessionStorage := sessionStorage st;
     topicInput := topicInput st; apiKeyInput := v;
     errorMessage := errorMessage st;
     flashcardsContainer := flashcardsContainer st;
     exampleMessage_hidden := exampleMessage_hidden st;
     apiKeySection_hidden := apiKeySection_hidden st;
     appContent_hidden := appContent_hidden st;
     generateButton_disabled := generateButton_disabled st;
     console_error := console_error st |}.

Definition set_errorMessage v st :=
  {| ai := ai st; sessionStorage := sessionStorage st;
     topicInput := topicInput st; apiKeyInput := apiKeyInput st;
     errorMessage := v;
     flashcardsContainer := flashcardsContainer st;
     exampleMessage_hidden := exampleMessage_hidden st;
     apiKeySection_hidden := apiKeySection_hidden st;
     appContent_hidden := appContent_hidden st;
     generateButton_disabled := generateButton_disabled st;
     console_error := console_error st |}.

Definition set_flashcardsContainer v st :=
  {| ai := ai st; sessionStorage := sessionStorage st;
     topicInput := topicInput st; apiKeyInput := apiKeyInput st;
     errorMessage := errorMessage st;
     flashcardsContainer := v;
     exampleMessage_hidden := exampleMessage_hidden st;
     apiKeySection_hidden := apiKeySection_hidden st;
     appContent_hidden := appContent_hidden st;
     generateButton_disabled := generateButton_disabled st;
     console_error := console_error st |}.

Definition set_exampleMessage_hidden v st :=
  {| ai := ai st; sessionStorage := sessionStorage st;
     topicInput := topicInput st; apiKeyInput := apiKeyInput st;
     errorMessage := errorMessage st;
     flashcardsContainer := flashcardsContainer st;
     exampleMessage_hidden := v;
     apiKeySection_hidden := apiKeySection_hidden st;
     appContent_hidden := appContent_hidden st;
     generateButton_disabled := generateButton_disabled st;
     console_error := console_error st |}.

Definition set_apiKeySection_hidden v st :=
  {| ai := ai st; sessionStorage := sessionStorage st;
     topicInput := topicInput st; apiKeyInput := apiKeyInput st;
     errorMessage := errorMessage st;
     flashcardsContainer := flashcardsContainer st;
     exampleMessage_hidden := exampleMessage_hidden st;
     apiKeySection_hidden := v;
     appContent_hidden := appContent_hidden st;
     generateButton_disabled := generateButton_disabled st;
     console_error := console_error st |}.

Definition set_appContent_hidden v st :=
  {| ai := ai st; sessionStorage := sessionStorage st;
     topicInput := topicInput st; apiKeyInput := apiKeyInput st;
     errorMessage := errorMessage st;
     flashcardsContainer := flashcardsContainer st;
     exampleMessage_hidden := exampleMessage_hidden st;
     apiKeySection_hidden := apiKeySection_hidden st;
     appContent_hidden := v;
     generateButton_disabled := generateButton_disabled st;
     console_error := console_error st |}.

Definition set_generateButton_disabled v st :=
  {| ai := ai st; sessionStorage := sessionStorage st;
     topicInput := topicInput st; apiKeyInput := apiKeyInput st;
     errorMessage := errorMessage st;
     flashcardsContainer := flashcardsContainer st;
     exampleMessage_hidden := exampleMessage_hidden st;
     apiKeySection_hidden := apiKeySection_hidden st;
     appContent_hidden := appContent_hidden st;
     generateButton_disabled := v;
     console_error := console_error st |}.

Definition set_console_error v st :=
  {| ai := ai st; sessionStorage := sessionStorage st;
     topicInput := topicInput st; apiKeyInput := apiKeyInput st;
     errorMessage := errorMessage st;
     flashcardsContainer := flashcardsContainer st;
     exampleMessage_hidden := exampleMessage_hidden st;
     apiKeySection_hidden := apiKeySection_hidden st;
     appContent_hidden := appContent_hidden st;
     generateButton_disabled := generateButton_disabled st;
     console_error := v |}.

(** The texts the page shows, named after the failure they report. *)
Definition MSG_NOT_INITIALIZED : jsstring :=
  str "API client is not initialized. Please set your API key.".
Definition MSG_EMPTY_TOPIC : jsstring :=
  str "Please enter a topic or some terms and definitions.".
Definition MSG_EMPTY_SECRET : jsstring :=
  str "Please enter a valid API key.".
Definition MSG_INIT_ERROR : jsstring :=
  str "Failed to initialize with the provided API key. Please check the key and try again.".
Definition MSG_EMPTY_RESPONSE : jsstring :=
  str "Failed to generate flashcards or received an empty response. Please try again.".
Definition MSG_NO_VALID_FLASHCARDS : jsstring :=
  str "No valid flashcards could be generated from the response. Please check the format.".
Definition MSG_GENERATING : jsstring := str "Generating flashcards...".
Definition DETAIL_CREDENTIAL_INVALID : jsstring :=
  str "Your API key is not valid. Please click " ++ [QUOTE]
  ++ str "Change Key" ++ [QUOTE] ++ str " to enter a new one.".
Definition MSG_ERROR_PREFIX : jsstring := str "An error occurred: ".
Definition MSG_CREDENTIAL_INVALID : jsstring :=
  MSG_ERROR_PREFIX ++ DETAIL_CREDENTIAL_INVALID.

(** [renderFlashcards]: the container is emptied and one face-down card
    is appended per record, in order. *)
Definition renderFlashcards (cards : list Flashcard) (st : State) : State :=
  set_flashcardsContainer cards (set_flashcardsContainer [] st).

(** [initializeApp] (lines 92-105) *)
Definition initializeApp (apiKey : jsstring) (st : State) : State :=
  match newGoogleGenAI apiKey with
  | Normal client =>
      set_flashcardsContainer []
        (set_exampleMessage_hidden true
          (set_errorMessage []
            (set_appContent_hidden false
              (set_apiKeySection_hidden true
                (set_ai (Some client) st)))))
  | Throw _ =>
      set_sessionStorage
        (delete API_KEY_SESSION_STORAGE_KEY (sessionStorage st))
        (set_errorMessage MSG_INIT_ERROR st)
  end.

(** The [DOMContentLoaded] listener (lines 108-119).  [getItem] gives
    [null] for a missing key, and an empty stored value is falsy too. *)
Definition DOMContentLoaded (st : State) : State :=
  let showForm st :=
    renderFlashcards DEFAULT_FLASHCARDS
      (set_exampleMessage_hidden false
        (set_appContent_hidden true
          (set_apiKeySection_hidden false st))) in
  match sessionStorage st !! API_KEY_SESSION_STORAGE_KEY with
  | Some storedApiKey =>
      if truthy storedApiKey then initializeApp storedApiKey st
      else showForm st
  | None => showForm st
  end.

(** The click listener of [saveApiKeyButton] (lines 122-131) *)
Definition saveApiKeyButton_click (st : State) : State :=
  let apiKey := trim (apiKeyInput st) in
  if truthy apiKey then
    set_apiKeyInput []
      (initializeApp apiKey
        (set_sessionStorage
          (<[API_KEY_SESSION_STORAGE_KEY := apiKey]> (sessionStorage st))
          st))
  else set_errorMessage MSG_EMPTY_SECRET st.

(** The click listener of [changeApiKey] (lines 134-145) *)
Definition changeApiKey_click (st : State) : State :=
  renderFlashcards DEFAULT_FLASHCARDS
    (set_exampleMessage_hidden false
      (set_topicInput []
        (set_errorMessage []
          (set_appContent_hidden true
            (set_apiKeySection_hidden false
              (set_ai None
                (set_sessionStorage
                  (delete API_KEY_SESSION_STORAGE_KEY (sessionStorage st))
                  st))))))).

(** The template literal of line 168-170, with the topic substituted. *)
Definition prompt (topic : jsstring) : jsstring :=
  str "Generate a list of flashcards for the topic of " ++ [QUOTE]
  ++ topic ++ [QUOTE]
  ++ str ". Each flashcard should have a term and a concise definition. Format the output as a list of "
  ++ [QUOTE] ++ str "Term: Definition" ++ [QUOTE]
  ++ str " pairs, with each pair on a new line. Ensure terms and definitions are distinct and clearly separated by a single colon. Here's an example output:"
  ++ [LF] ++ str "    Hello: Hola"
  ++ [LF] ++ str "    Goodbye: Adi" ++ [0xF3] ++ str "s".

(** The click listener of [generateButton], up to its [await]
    (lines 147-174). *)
Definition generateButton_click (st : State) : started State GoogleGenAI :=
  match ai st with
  | None => Finished (set_errorMessage MSG_NOT_INITIALIZED st)
  | Some client =>
      let topic := trim (topicInput st) in
      if negb (truthy topic) then
        Finished (set_flashcardsContainer []
                   (set_errorMessage MSG_EMPTY_TOPIC st))
      else
        Awaiting
          (set_exampleMessage_hidden true
            (set_generateButton_disabled true
              (set_flashcardsContainer []
                (set_errorMessage MSG_GENERATING st))))
          client
          {| model := str "gemini-2.5-flash"; contents := prompt topic |}
  end.

(** The rest of the [try] block, once the promise has settled
    (lines 176-206). *)
Definition generate_try (r : settled) (st : State) : completion State :=
  match r with
  | Rejected error => Throw error
  | Fulfilled text =>
      let responseText := default [] text in
      if truthy responseText then
        let! flashcards := parseResponse responseText in
        if (0 <? length flashcards)%nat then
          Normal (renderFlashcards flashcards (set_errorMessage [] st))
        else Normal (set_errorMessage MSG_NO_VALID_FLASHCARDS st)
      else Normal (set_errorMessage MSG_EMPTY_RESPONSE st)
  end.

(** The [catch] block (lines 207-216) *)
Definition generate_catch (error : exn) (st : State) : State :=
  let detailedError := messageOr error in
  let detailedError :=
    if includes INVALID_KEY_MARKER detailedError
    then DETAIL_CREDENTIAL_INVALID else detailedError in
  set_flashcardsContainer []
    (set_errorMessage (MSG_ERROR_PREFIX ++ detailedError)
      (set_console_error (console_error st ++ [error]) st)).

(** The listener from the [await] on, with [catch] and [finally]. *)
Definition generateButton_resume (r : settled) (st : State) : State :=
  set_generateButton_disabled false
    match generate_try r st with
    | Normal st' => st'
    | Throw error => generate_catch error st
    end.

(** A whole click against a service [upstream]: the final state and the
    requests that were sent. *)
Definition generate (upstream : GoogleGenAI -> GenerateContentParameters -> settled)
    (st : State) : State * list GenerateContentParameters :=
  match generateButton_click st with
  | Finished st' => (st', [])
  | Awaiting st' client request =>
      (generateButton_resume (upstream client request) st', [request])
  end.

(** A page with no client, an empty session store and nothing typed or
    shown; examples are built from it with the setters. *)
Definition blank : State :=
  {| ai := None; sessionStorage := ∅; topicInput := []; apiKeyInput := [];
     errorMessage := []; flashcardsContainer := [];
     exampleMessage_hidden := true; apiKeySection_hidden := true;
     appContent_hidden := true; generateButton_disabled := false;
     console_error := [] |}.

(** The gate holds no credential: no client, and no key under
    [API_KEY_SESSION_STORAGE_KEY] in the session store. *)
Definition Absent (st : State) : Prop :=
  ai st = None /\ sessionStorage st !! API_KEY_SESSION_STORAGE_KEY = None.

End Page.
#[local] Unset Implicit Arguments.
End IndexTsx.

(** ** src/unnamed/part_000: the key form is a modal dialog *)

Module Part000.
#[local] Set Implicit Arguments.
Section Page.

Variable GoogleGenAI : Type.
Variable newGoogleGenAI : jsstring -> completion GoogleGenAI.

(** The module-level variable [ai], the session store, the parts of the
    document the handlers read or write, and the [alert] boxes shown. *)
Record State := {
  ai : option GoogleGenAI;
  sessionStorage : gmap jsstring jsstring;
  topicInput : jsstring;
  apiKeyInput : jsstring;
  errorMessage : jsstring;
  flashcardsContainer : list Flashcard;
  exampleMessage_hidden : bool;
  generateButton_disabled : bool;
  buttonText_hidden : bool;
  spinner_hidden : bool;
  apiKeyModal_open : bool;
  alerts : list jsstring;
  console_error : list exn
}.

Definition set_ai v st :=
  {| ai := v;
     sessionStorage := sessionStorage st;
     topicInput := topicInput st;
     apiKeyInput := apiKeyInput st;
     errorMessage := errorMessage st;
     flashcardsContainer := flashcardsContainer st;
     exampleMessage_hidden := exampleMessage_hidden st;
     generateButton_disabled := generateButton_disabled st;
     buttonText_hidden := buttonText_hidden st;
     spinner_hidden := spinner_hidden st;
     apiKeyModal_open := apiKeyModal_open st;
     alerts := alerts st;
     console_error := console_error st |}.

Definition set_sessionStorage v st :=
  {| ai := ai st;
     sessionStorage := v;
     topicInput := topicInput st;
     apiKeyInput := apiKeyInput st;
     errorMessage := errorMessage st;
     flashcardsContainer := flashcardsContainer st;
     exampleMessage_hidden := exampleMessage_hidden st;
     generateButton_disabled := generateButton_disabled st;
     buttonText_hidden := buttonText_hidden st;
     spinner_hidden := spinner_hidden st;
     apiKeyModal_open := apiKeyModal_open st;
     alerts := alerts st;
     console_error := console_error st |}.

Definition set_topicInput v st :=
  {| ai := ai st;
     sessionStorage := sessionStorage st;
     topicInput := v;
     apiKeyInput := apiKeyInput st;
     errorMessage := errorMessage st;
     flashcardsContainer := flashcardsContainer st;
     exampleMessage_hidden := exampleMessage_hidden st;
     generateButton_disabled := generateButton_disabled st;
     buttonText_hidden := buttonText_hidden st;
     spinner_hidden := spinner_hidden st;
     apiKeyModal_open := apiKeyModal_open st;
     alerts := alerts st;
     console_error := console_error st |}.

Definition set_apiKeyInput v st :=
  {| ai := ai st;
     sessionStorage := sessionStorage st;
     topicInput := topicInput st;
     apiKeyInput := v;
     errorMessage := errorMessage st;
     flashcardsContainer := flashcardsContainer st;
     exampleMessage_hidden := exampleMessage_hidden st;
     generateButton_disabled := generateButton_disabled st;
     buttonText_hidden := buttonText_hidden st;
     spinner_hidden := spinner_hidden st;
     apiKeyModal_open := apiKeyModal_open st;
     alerts := alerts st;
     console_error := console_error st |}.

Definition set_errorMessage v st :=
  {| ai := ai st;
     sessionStorage := sessionStorage st;
     topicInput := topicInput st;
     apiKeyInput := apiKeyInput st;
     errorMessage := v;
     flashcardsContainer := flashcardsContainer st;
     exampleMessage_hidden := exampleMessage_hidden st;
     generateButton_disabled := generateButton_disabled st;
     buttonText_hidden := buttonText_hidden st;
     spinner_hidden := spinner_hidden st;
     apiKeyModal_open := apiKeyModal_open st;
     alerts := alerts st;
     console_error := console_error st |}.

Definition set_flashcardsContainer v st :=
  {| ai := ai st;
     sessionStorage := sessionStorage st;
     topicInput := topicInput st;
     apiKeyInput := apiKeyInput st;
     errorMessage := errorMessage st;
     flashcardsContainer := v;
     exampleMessage_hidden := exampleMessage_hidden st;
     generateButton_disabled := generateButton_disabled st;
     buttonText_hidden := buttonText_hidden st;
     spinner_hidden := spinner_hidden st;
     apiKeyModal_open := apiKeyModal_open st;
     alerts := alerts st;
     console_error := console_error st |}.

Definition set_exampleMessage_hidden v st :=
  {| ai := ai st;
     sessionStorage := sessionStorage st;
     topicInput := topicInput st;
     apiKeyInput := apiKeyInput st;
     errorMessage := errorMessage st;
     flashcardsContainer := flashcardsContainer st;
     exampleMessage_hidden := v;
     generateButton_disabled := generateButton_disabled st;
     buttonText_hidden := buttonText_hidden st;
     spinner_hidden := spinner_hidden st;
     apiKeyModal_open := apiKeyModal_open st;
     alerts := alerts st;
     console_error := console_error st |}.

Definition set_generateButton_disabled v st :=
  {| ai := ai st;
     sessionStorage := sessionStorage st;
     topicInput := topicInput st;
     apiKeyInput := apiKeyInput st;
     errorMessage := errorMessage st;
     flashcardsContainer := flashcardsContainer st;
     exampleMessage_hidden := exampleMessage_hidden st;
     generateButton_disabled := v;
     buttonText_hidden := buttonText_hidden st;
     spinner_hidden := spinner_hidden st;
     apiKeyModal_open := apiKeyModal_open st;
     alerts := alerts st;
     console_error := console_error st |}.

Definition set_buttonText_hidden v st :=
  {| ai := ai st;
     sessionStorage := sessionStorage st;
     topicInput := topicInput st;
     apiKeyInput := apiKeyInput st;
     errorMessage := errorMessage st;
     flashcardsContainer := flashcardsContainer st;
     exampleMessage_hidden := exampleMessage_hidden st;
     generateButton_disabled := generateButton_disabled st;
     buttonText_hidden := v;
     spinner_hidden := spinner_hidden st;
     apiKeyModal_open := apiKeyModal_open st;
     alerts := alerts st;
     console_error := console_error st |}.

Definition set_spinner_hidden v st :=
  {| ai := ai st;
     sessionStorage := sessionStorage st;
     topicInput := topicInput st;
     apiKeyInput := apiKeyInput st;
     errorMessage := errorMessage st;
     flashcardsContainer := flashcardsContainer st;
     exampleMessage_hidden := exampleMessage_hidden st;
     generateButton_disabled := generateButton_disabled st;
     buttonText_hidden := buttonText_hidden st;
     spinner_hidden := v;
     apiKeyModal_open := apiKeyModal_open st;
     alerts := alerts st;
     console_error := console_error st |}.

Definition set_apiKeyModal_open v st :=
  {| ai := ai st;
     sessionStorage := sessionStorage st;
     topicInput := topicInput st;
     apiKeyInput := apiKeyInput st;
     errorMessage := errorMessage st;
     flashcardsContainer := flashcardsContainer st;
     exampleMessage_hidden := exampleMessage_hidden st;
     generateButton_disabled := generateButton_disabled st;
     buttonText_hidden := buttonText_hidden st;
     spinner_hidden := spinner_hidden st;
     apiKeyModal_open := v;
     alerts := alerts st;
     console_error := console_error st |}.

Definition set_alerts v st :=
  {| ai := ai st;
     sessionStorage := sessionStorage st;
     topicInput := topicInput st;
     apiKeyInput := apiKeyInput st;
     errorMessage := errorMessage st;
     flashcardsContainer := flashcardsContainer st;
     exampleMessage_hidden := exampleMessage_hidden st;
     generateButton_disabled := generateButton_disabled st;
     buttonText_hidden := buttonText_hidden st;
     spinner_hidden := spinner_hidden st;
     apiKeyModal_open := apiKeyModal_open st;
     alerts := v;
     console_error := console_error st |}.

Definition set_console_error v st :=
  {| ai := ai st;
     sessionStorage := sessionStorage st;
     topicInput := topicInput st;
     apiKeyInput := apiKeyInput st;
     errorMessage := errorMessage st;
     flashcardsContainer := flashcardsContainer st;
     exampleMessage_hidden := exampleMessage_hidden st;
     generateButton_disabled := generateButton_disabled st;
     buttonText_hidden := buttonText_hidden st;
     spinner_hidden := spinner_hidden st;
     apiKeyModal_open := apiKeyModal_open st;
     alerts := alerts st;
     console_error := v |}.

Definition MSG_NOT_INITIALIZED : jsstring :=
  str "API client is not initialized. Please set your API key.".
Definition MSG_EMPTY_TOPIC : jsstring :=
  str "Please enter a topic or some terms and definitions.".
Definition MSG_EMPTY_SECRET : jsstring :=
  str "Please enter a valid API key.".
Definition MSG_INIT_ERROR : jsstring :=
  str "Failed to initialize with the provided API key. Please check the key and try again.".
Definition DETAIL_EMPTY_RESPONSE : jsstring :=
  str "Received an empty response from the API.".
Definition MSG_NO_VALID_FLASHCARDS : jsstring :=
  str "Could not parse any valid flashcards from the response. The topic might be too ambiguous. Please try again with a more specific topic.".
Definition DETAIL_CREDENTIAL_INVALID : jsstring :=
  str "Your API key is not valid. Please click " ++ [QUOTE]
  ++ str "Change API Key" ++ [QUOTE] ++ str " to enter a new one.".
Definition MSG_ERROR_PREFIX : jsstring := str "An error occurred: ".
Definition MSG_EMPTY_RESPONSE : jsstring :=
  MSG_ERROR_PREFIX ++ DETAIL_EMPTY_RESPONSE.
Definition MSG_CREDENTIAL_INVALID : jsstring :=
  MSG_ERROR_PREFIX ++ DETAIL_CREDENTIAL_INVALID.

(** [renderFlashcards] (lines 44-84) *)
Definition renderFlashcards (cards : list Flashcard) (st : State) : State :=
  set_flashcardsContainer cards (set_flashcardsContainer [] st).

(** [initializeAi] (lines 91-100): the state and the returned boolean. *)
Definition initializeAi (apiKey : jsstring) (st : State) : State * bool :=
  match newGoogleGenAI apiKey with
  | Normal client => (set_ai (Some client) st, true)
  | Throw e =>
      (set_console_error (console_error st ++ [e])
         (set_errorMessage MSG_INIT_ERROR st), false)
  end.

(** [setLoading] (lines 106-110) *)
Definition setLoading (isLoading : bool) (st : State) : State :=
  set_spinner_hidden (negb isLoading)
    (set_buttonText_hidden isLoading
      (set_generateButton_disabled isLoading st)).

(** The template literal of lines 134-136, with the topic substituted. *)
Definition prompt (topic : jsstring) : jsstring :=
  str "Generate a list of flashcards for the topic of " ++ [QUOTE]
  ++ topic ++ [QUOTE]
  ++ str ". Each flashcard should have a term and a concise definition. Format the output as a list of "
  ++ [QUOTE] ++ str "Term: Definition" ++ [QUOTE]
  ++ str " pairs, with each pair on a new line. Ensure terms and definitions are distinct and clearly separated by a single colon. Do not include any introductory text. For example:"
  ++ [LF] ++ str "Hello: Hola"
  ++ [LF] ++ str "Goodbye: Adi" ++ [0xC3; 0xB3] ++ str "s".

(** [generateAndRenderCards] up to its [await] (lines 116-141) *)
Definition generateAndRenderCards (st : State) : started State GoogleGenAI :=
  let topic := trim (topicInput st) in
  if negb (truthy topic) then
    Finished (set_errorMessage MSG_EMPTY_TOPIC st)
  else
    match ai st with
    | None =>
        Finished (set_apiKeyModal_open true
                   (set_errorMessage MSG_NOT_INITIALIZED st))
    | Some client =>
        Awaiting
          (set_flashcardsContainer []
            (set_exampleMessage_hidden true
              (set_errorMessage [] (setLoading true st))))
          client
          {| model := str "gemini-2.5-flash"; contents := prompt topic |}
    end.

(** The rest of the [try] block (lines 143-167) *)
Definition generate_try (r : settled) (st : State) : completion State :=
  match r with
  | Rejected error => Throw error
  | Fulfilled text =>
      let responseText := default [] text in
      if negb (truthy responseText) then
        Throw (Exn (Some DETAIL_EMPTY_RESPONSE))
      else
        let! flashcards := parseResponse responseText in
        if (0 <? length flashcards)%nat then
          Normal (renderFlashcards flashcards st)
        else Normal (set_errorMessage MSG_NO_VALID_FLASHCARDS st)
  end.

(** The [catch] block (lines 168-176) *)
Definition generate_catch (error : exn) (st : State) : State :=
  let st := set_console_error (console_error st ++ [error]) st in
  let detailedError := messageOr error in
  if includes INVALID_KEY_MARKER detailedError then
    set_errorMessage (MSG_ERROR_PREFIX ++ DETAIL_CREDENTIAL_INVALID)
      (set_ai None
        (set_sessionStorage
          (delete API_KEY_SESSION_STORAGE_KEY (sessionStorage st)) st))
  else set_errorMessage (MSG_ERROR_PREFIX ++ detailedError) st.

(** [generateAndRenderCards] from the [await] on, with [catch] and
    [finally]. *)
Definition generateAndRenderCards_resume (r : settled) (st : State) : State :=
  setLoading false
    match generate_try r st with
    | Normal st' => st'
    | Throw error => generate_catch error st
    end.

(** A whole call against a service [upstream]: the final state and the
    requests that were sent. *)
Definition generate (upstream : GoogleGenAI -> GenerateContentParameters -> settled)
    (st : State) : State * list GenerateContentParameters :=
  match generateAndRenderCards st with
  | Finished st' => (st', [])
  | Awaiting st' client request =>
      (generateAndRenderCards_resume (upstream client request) st', [request])
  end.

(** The [DOMContentLoaded] listener (lines 186-194) *)
Definition DOMContentLoaded (st : State) : State :=
  let st :=
    match sessionStorage st !! API_KEY_SESSION_STORAGE_KEY with
    | Some storedApiKey =>
        if truthy storedApiKey then fst (initializeAi storedApiKey st)
        else st
    | None => st
    end in
  set_exampleMessage_hidden false (renderFlashcards DEFAULT_FLASHCARDS st).

(** The click listener of [generateButton] (lines 197-203) *)
Definition generateButton_click (st : State) : started State GoogleGenAI :=
  match ai st with
  | None => Finished (set_apiKeyModal_open true st)
  | Some _ => generateAndRenderCards st
  end.

(** The click listener of [saveApiKeyButton] (lines 206-217).  The
    client is built only when the trimmed key is non-empty, and the key
    is stored only when that succeeded. *)
Definition saveApiKeyButton_click (st : State) : started State GoogleGenAI :=
  let apiKey := trim (apiKeyInput st) in
  if truthy apiKey then
    match initializeAi apiKey st with
    | (st, true) =>
        generateAndRenderCards
          (set_apiKeyModal_open false
            (set_apiKeyInput []
              (set_sessionStorage
                (<[API_KEY_SESSION_STORAGE_KEY := apiKey]> (sessionStorage st))
                st)))
    | (st, false) => Finished st
    end
  else Finished (set_alerts (alerts st ++ [MSG_EMPTY_SECRET]) st).

(** The click listener of [cancelApiKey] (lines 220-222) *)
Definition cancelApiKeyButton_click (st : State) : State :=
  set_apiKeyModal_open false st.

(** The click listener of [changeApiKeyLink] (lines 225-230) *)
Definition changeApiKeyLink_click (st : State) : State :=
  set_apiKeyModal_open true
    (set_ai None
      (set_sessionStorage
        (delete API_KEY_SESSION_STORAGE_KEY (sessionStorage st)) st)).

(** A page with no client, an empty session store and nothing typed or
    shown; examples are built from it with the setters. *)
Definition blank : State :=
  {| ai := None; sessionStorage := ∅; topicInput := []; apiKeyInput := [];
     errorMessage := []; flashcardsContainer := [];
     exampleMessage_hidden := true; generateButton_disabled := false;
     buttonText_hidden := false; spinner_hidden := true;
     apiKeyModal_open := false; alerts := []; console_error := [] |}.

(** The gate holds no credential: no client, and no key under
    [API_KEY_SESSION_STORAGE_KEY] in the session store. *)
Definition Absent (st : State) : Prop :=
  ai st = None /\ sessionStorage st !! API_KEY_SESSION_STORAGE_KEY = None.

End Page.
#[local] Unset Implicit Arguments.
End Part000.

(** ** Vocabulary of the properties *)

(** [c] occurs in [s]. *)
Definition contains (c : N) (s : jsstring) : bool := existsb (N.eqb c) s.

Definition startsWithWhiteSpace (s : jsstring) : bool :=
  match s with
  | [] => false
  | c :: _ => isWhiteSpace c
  end.

(** Neither the first nor the last code unit of [s] is white space. *)
Definition noOuterWhiteSpace (s : jsstring) : bool :=
  negb (startsWithWhiteSpace s) && negb (startsWithWhiteSpace (rev s)).

(** A line in the words of the description: it splits on the colon into
    at least two segments, the first one is not blank, and neither is
    what follows the first colon. *)
Definition isPair (line : jsstring) : bool :=
  let parts := split COLON line in
  (2 <=? length parts)%nat
  && truthy (trim (hd [] parts))
  && truthy (trim (join COLON (tl parts))).

(** The card such a line stands for: first segment trimmed, and the
    other segments rejoined with the colon and trimmed. *)
Definition cardOf (line : jsstring) : Flashcard :=
  let parts := split COLON line in
  {| term := trim (hd [] parts);
     definition := trim (join COLON (tl parts)) |}.

(** A card that can be written on a line of its own as
    [Term: Definition] and read back unchanged. *)
Definition wellFormed (c : Flashcard) : bool :=
  truthy (term c) && noOuterWhiteSpace (term c)
  && negb (contains COLON (term c)) && negb (contains LF (term c))
  && truthy (definition c) && noOuterWhiteSpace (definition c)
  && negb (contains LF (definition c)).

Definition pairLine (c : Flashcard) : jsstring :=
  term c ++ COLON :: SPACE :: definition c.

(** The response text made of one [Term: Definition] line per card. *)
Definition responseOf (cards : list Flashcard) : jsstring :=
  join LF (map pairLine cards).

(** ** The cards in the document *)

(** [index.toString()] *)
Definition toString (index : nat) : jsstring :=
  str (NilEmpty.string_of_uint (Nat.to_uint index)).

(** [isFlipped.toString()] *)
Definition boolToString (b : bool) : jsstring :=
  if b then str "true" else str "false".

(** [cards.forEach((flashcard, index) => ...)], collecting what each
    call appends to the container. *)
Fixpoint forEachIndexed {A B : Type} (f : A -> nat -> B) (index : nat)
    (xs : list A) : list B :=
  match xs with
  | [] => []
  | x :: xs' => f x index :: forEachIndexed f (S index) xs'
  end.

(** The card elements of index.tsx (lines 50-85): the index attribute,
    the two texts and whether the class [flipped] is set. *)
Module IndexTsxCards.

Record Element := {
  dataset_index : jsstring;
  termText : jsstring;
  definitionText : jsstring;
  flipped : bool
}.

Definition createCard (flashcard : Flashcard) (index : nat) : Element :=
  {| dataset_index := toString index;
     termText := term flashcard;
     definitionText := definition flashcard;
     flipped := false |}.

(** What [renderFlashcards] leaves in the emptied container. *)
Definition elements (cards : list Flashcard) : list Element :=
  forEachIndexed createCard 0 cards.

(** The click listener of a card: [classList.toggle('flipped')]. *)
Definition click (el : Element) : Element :=
  {| dataset_index := dataset_index el;
     termText := termText el;
     definitionText := definitionText el;
     flipped := negb (flipped el) |}.

End IndexTsxCards.

(** The card elements of part_000 (lines 46-83), which also carry the
    accessibility attributes. *)
Module Part000Cards.

Record Element := {
  dataset_index : jsstring;
  role : jsstring;
  aria_pressed : jsstring;
  aria_label : jsstring;
  termText : jsstring;
  definitionText : jsstring;
  flipped : bool
}.

Definition createCard (flashcard : Flashcard) (index : nat) : Element :=
  {| dataset_index := toString index;
     role := str "button";
     aria_pressed := str "false";
     aria_label :=
       str "Flashcard for " ++ term flashcard ++ str ". Click to flip.";
     termText := term flashcard;
     definitionText := definition flashcard;
     flipped := false |}.

Definition elements (cards : list Flashcard) : list Element :=
  forEachIndexed createCard 0 cards.

(** The click listener of a card: the class is toggled, then
    [aria-pressed] is set from whether the class is now there. *)
Definition click (el : Element) : Element :=
  let isFlipped := negb (flipped el) in
  {| dataset_index := dataset_index el;
     role := role el;
     aria_pressed := boolToString isFlipped;
     aria_label := aria_label el;
     termText := termText el;
     definitionText := definitionText el;
     flipped := isFlipped |}.

End Part000Cards.

(** ** The listeners as an event loop *)

(** The state in which a handler leaves the page when it returns or
    suspends. *)
Definition pageOf {State Client : Type} (s : started State Client) : State :=
  match s with
  | Finished st => st
  | Awaiting st _ _ => st
  end.

(** The events the listeners of index.tsx are registered for, with the
    user typing into the two inputs.  [dispatch] lets every listener
    run in every state and lets a pending request settle at any time,
    which covers every order in which a browser can run them. *)
Module IndexTsxEvents.
#[local] Set Implicit Arguments.
Section Loop.

Variable GoogleGenAI : Type.
Variable newGoogleGenAI : jsstring -> completion GoogleGenAI.

Inductive Event :=
  | ContentLoaded
  | TopicTyped (value : jsstring)
  | KeyTyped (value : jsstring)
  | SaveClicked
  | ChangeClicked
  | GenerateClicked
  | RequestSettled (r : settled).

Definition dispatch (ev : Event) (st : IndexTsx.State GoogleGenAI)
  : IndexTsx.State GoogleGenAI :=
  match ev with
  | ContentLoaded => IndexTsx.DOMContentLoaded newGoogleGenAI st
  | TopicTyped value => IndexTsx.set_topicInput value st
  | KeyTyped value => IndexTsx.set_apiKeyInput value st
  | SaveClicked => IndexTsx.saveApiKeyButton_click newGoogleGenAI st
  | ChangeClicked => IndexTsx.changeApiKey_click st
  | GenerateClicked => pageOf (IndexTsx.generateButton_click st)
  | RequestSettled r => IndexTsx.generateButton_resume r st
  end.

Definition run (evs : list Event) (st : IndexTsx.State GoogleGenAI)
  : IndexTsx.State GoogleGenAI :=
  fold_left (fun st ev => dispatch ev st) evs st.

End Loop.
#[local] Unset Implicit Arguments.
End IndexTsxEvents.

(** The same for part_000. *)
Module Part000Events.
#[local] Set Implicit Arguments.
Section Loop.

Variable GoogleGenAI : Type.
Variable newGoogleGenAI : jsstring -> completion GoogleGenAI.

Inductive Event :=
  | ContentLoaded
  | TopicTyped (value : jsstring)
  | KeyTyped (value : jsstring)
  | SaveClicked
  | CancelClicked
  | ChangeClicked
  | GenerateClicked
  | RequestSettled (r : settled).

Definition dispatch (ev : Event) (st : Part000.State GoogleGenAI)
  : Part000.State GoogleGenAI :=
  match ev with
  | ContentLoaded => Part000.DOMContentLoaded newGoogleGenAI st
  | TopicTyped value => Part000.set_topicInput value st
  | KeyTyped value => Part000.set_apiKeyInput value st
  | SaveClicked => pageOf (Part000.saveApiKeyButton_click newGoogleGenAI st)
  | CancelClicked => Part000.cancelApiKeyButton_click st
  | ChangeClicked => Part000.changeApiKeyLink_click st
  | GenerateClicked => pageOf (Part000.generateButton_click st)
  | RequestSettled r => Part000.generateAndRenderCards_resume r st
  end.

Definition run (evs : list Event) (st : Part000.State GoogleGenAI)
  : Part000.State GoogleGenAI :=
  fold_left (fun st ev => dispatch ev st) evs st.

End Loop.
#[local] Unset Implicit Arguments.
End Part000Events.

(** A stored key is one the constructor accepts. *)
Definition storedKeyAccepted {G : Type} (new : jsstring -> completion G)
    (store : gmap jsstring jsstring) : Prop :=
  forall k : jsstring,
    store !! API_KEY_SESSION_STORAGE_KEY = Some k ->
    exists client, new k = Normal client.

(** The number of line feeds in a text. *)
Definition countLF (text : jsstring) : nat :=
  length (List.filter (N.eqb LF) text).

Definition CR : N := 13.

(** ** Facts about the string operations *)

Lemma split_cons (sep : N) (s : jsstring) :
  exists p ps, split sep s = p :: ps.
Proof.
  induction s as [|c s IH]; simpl; [eauto|].
  destruct (c =? sep); [eauto|].
  destruct IH as (p & ps & ->). eauto.
Qed.

Lemma join_cons (sep : N) (p q : jsstring) (ps : list jsstring) :
  join sep (p :: q :: ps) = p ++ sep :: join sep (q :: ps).
Proof. reflexivity. Qed.

Lemma join_split (sep : N) (s : jsstring) : join sep (split sep s) = s.
Proof.
  induction s as [|c s IH]; [reflexivity|].
  simpl split. destruct (N.eqb_spec c sep) as [->|Hne].
  - destruct (split_cons sep s) as (p & ps & E).
    rewrite E in *. rewrite join_cons, IH. reflexivity.
  - destruct (split_cons sep s) as (p & ps & E).
    rewrite E in *. destruct ps as [|q ps].
    + simpl in *. congruence.
    + rewrite join_cons in *. rewrite <- IH. reflexivity.
Qed.

Lemma contains_In (c : N) (s : jsstring) : contains c s = true <-> In c s.
Proof.
  unfold contains. rewrite existsb_exists. split.
  - intros (x & Hx & E). apply N.eqb_eq in E. congruence.
  - intros H. exists c. split; [assumption|apply N.eqb_refl].
Qed.

Lemma contains_false (c : N) (s : jsstring) :
  contains c s = false <-> ~ In c s.
Proof.
  rewrite <- contains_In. destruct (contains c s); split; congruence.
Qed.

Lemma split_app_sep (sep : N) (t r : jsstring) :
  ~ In sep t -> split sep (t ++ sep :: r) = t :: split sep r.
Proof.
  induction t as [|c t IH]; intros Hnot; simpl.
  - rewrite N.eqb_refl. reflexivity.
  - destruct (N.eqb_spec c sep) as [->|Hne].
    + exfalso. apply Hnot. left. reflexivity.
    + rewrite IH; [reflexivity|]. intros H. apply Hnot. right. exact H.
Qed.

Lemma split_no_sep (sep : N) (t : jsstring) :
  ~ In sep t -> split sep t = [t].
Proof.
  induction t as [|c t IH]; intros Hnot; simpl; [reflexivity|].
  destruct (N.eqb_spec c sep) as [->|Hne].
  - exfalso. apply Hnot. left. reflexivity.
  - rewrite IH; [reflexivity|]. intros H. apply Hnot. right. exact H.
Qed.

Lemma split_hd_no_sep (sep : N) (s p : jsstring) (ps : list jsstring) :
  split sep s = p :: ps -> ~ In sep p.
Proof.
  revert p ps. induction s as [|c s IH]; intros p ps; simpl.
  - intros [= <- <-] [].
  - destruct (N.eqb_spec c sep) as [->|Hne].
    + intros [= <- <-] [].
    + destruct (split_cons sep s) as (q & qs & E). rewrite E.
      intros [= <- <-] [H|H]; [congruence|].
      exact (IH _ _ E H).
Qed.

Lemma split_join (sep : N) (l : jsstring) (ls : list jsstring) :
  Forall (fun x => ~ In sep x) (l :: ls) ->
  split sep (join sep (l :: ls)) = l :: ls.
Proof.
  revert l. induction ls as [|m ls IH]; intros l Hall.
  - simpl. apply split_no_sep. inversion Hall; assumption.
  - rewrite join_cons. inversion Hall as [|? ? Hl Hrest]; subst.
    rewrite split_app_sep by assumption. rewrite IH by assumption.
    reflexivity.
Qed.

Lemma trimStart_snoc (a : jsstring) (c : N) :
  isWhiteSpace c = false -> trimStart (a ++ [c]) = trimStart a ++ [c].
Proof.
  intros Hc. induction a as [|x a IH]; simpl.
  - rewrite Hc. reflexivity.
  - destruct (isWhiteSpace x); [exact IH|reflexivity].
Qed.

Lemma trimStart_head (s : jsstring) :
  startsWithWhiteSpace (trimStart s) = false.
Proof.
  induction s as [|c s IH]; simpl; [reflexivity|].
  destruct (isWhiteSpace c) eqn:E; [exact IH|simpl; exact E].
Qed.

Lemma trimStart_fixed (s : jsstring) :
  startsWithWhiteSpace s = false -> trimStart s = s.
Proof. destruct s as [|c s]; simpl; [reflexivity|]. intros ->. reflexivity. Qed.

Lemma trimStart_In (x : N) (s : jsstring) : In x (trimStart s) -> In x s.
Proof.
  induction s as [|c s IH]; simpl; [tauto|].
  destruct (isWhiteSpace c); simpl; tauto.
Qed.

Lemma trimEnd_In (x : N) (s : jsstring) : In x (trimEnd s) -> In x s.
Proof.
  unfold trimEnd. intros H. apply in_rev in H. apply trimStart_In in H.
  apply in_rev. exact H.
Qed.

Lemma trim_In (x : N) (s : jsstring) : In x (trim s) -> In x s.
Proof. unfold trim. intros H. apply trimStart_In, trimEnd_In, H. Qed.

Lemma trimEnd_head (s : jsstring) :
  startsWithWhiteSpace s = false -> startsWithWhiteSpace (trimEnd s) = false.
Proof.
  destruct s as [|c s]; [reflexivity|]. simpl. intros Hc.
  unfold trimEnd. simpl rev. rewrite trimStart_snoc by exact Hc.
  rewrite rev_app_distr. simpl. exact Hc.
Qed.

Lemma trimEnd_last (s : jsstring) :
  startsWithWhiteSpace (rev (trimEnd s)) = false.
Proof. unfold trimEnd. rewrite rev_involutive. apply trimStart_head. Qed.

Lemma trim_noOuterWhiteSpace (s : jsstring) :
  noOuterWhiteSpace (trim s) = true.
Proof.
  unfold noOuterWhiteSpace, trim.
  rewrite trimEnd_head by apply trimStart_head.
  rewrite trimEnd_last. reflexivity.
Qed.

Lemma trim_fixed (s : jsstring) : noOuterWhiteSpace s = true -> trim s = s.
Proof.
  unfold noOuterWhiteSpace. intros H.
  apply andb_true_iff in H as [H1 H2].
  apply negb_true_iff in H1, H2.
  unfold trim. rewrite (trimStart_fixed _ H1).
  unfold trimEnd. rewrite (trimStart_fixed _ H2). apply rev_involutive.
Qed.

Lemma truthy_nonempty (s : jsstring) : truthy s = true <-> s <> [].
Proof. destruct s; simpl; split; congruence. Qed.

(** ** The parser in closed form *)

Lemma parseLine_eq (line : jsstring) :
  parseLine line = Normal (if isPair line then Some (cardOf line) else None).
Proof.
  unfold parseLine, isPair, cardOf.
  destruct (split_cons COLON line) as (p & ps & ->).
  destruct ps as [|q ps]; [reflexivity|].
  cbn [length Nat.leb trimAt nth_error bind hd tl slice skipn andb].
  destruct (truthy (trim p)); [|reflexivity].
  cbn [andb]. destruct (truthy (trim (join COLON (q :: ps)))); reflexivity.
Qed.

Lemma mapM_parseLine (lines : list jsstring) :
  mapM parseLine lines
  = Normal (map (fun l => if isPair l then Some (cardOf l) else None) lines).
Proof.
  induction lines as [|l lines IH]; [reflexivity|].
  simpl. rewrite parseLine_eq, IH. reflexivity.
Qed.

Lemma filterNotNull_pairs (lines : list jsstring) :
  filterNotNull
    (map (fun l => if isPair l then Some (cardOf l) else None) lines)
  = map cardOf (List.filter isPair lines).
Proof.
  induction lines as [|l lines IH]; [reflexivity|].
  simpl. destruct (isPair l); simpl; rewrite IH; reflexivity.
Qed.

Lemma parseResponse_eq (text : jsstring) :
  parseResponse text = Normal (map cardOf (List.filter isPair (split LF text))).
Proof.
  unfold parseResponse. rewrite mapM_parseLine. simpl.
  rewrite filterNotNull_pairs. reflexivity.
Qed.

(** ** Well-formed responses are read back *)

Lemma wellFormed_parts (c : Flashcard) :
  wellFormed c = true ->
  term c <> [] /\ trim (term c) = term c
  /\ ~ In COLON (term c) /\ ~ In LF (term c)
  /\ definition c <> [] /\ trim (definition c) = definition c
  /\ ~ In LF (definition c).
Proof.
  unfold wellFormed. rewrite !andb_true_iff, !negb_true_iff.
  intros [[[[[[Ht Htt] Hc] Hl] Hd] Hdt] Hdl].
  repeat split.
  - apply truthy_nonempty, Ht.
  - apply trim_fixed, Htt.
  - apply contains_false, Hc.
  - apply contains_false, Hl.
  - apply truthy_nonempty, Hd.
  - apply trim_fixed, Hdt.
  - apply contains_false, Hdl.
Qed.

Lemma trim_leading_space (d : jsstring) : trim (SPACE :: d) = trim d.
Proof. reflexivity. Qed.

Lemma pairLine_read_back (c : Flashcard) :
  wellFormed c = true ->
  isPair (pairLine c) = true /\ cardOf (pairLine c) = c.
Proof.
  intros H.
  destruct (wellFormed_parts _ H) as (Ht & Htt & Hc & _ & Hd & Hdt & _).
  unfold isPair, cardOf, pairLine.
  rewrite split_app_sep by exact Hc.
  destruct (split_cons COLON (SPACE :: definition c)) as (p & ps & E).
  rewrite E. cbn [length hd tl Nat.leb andb].
  rewrite <- E, join_split, trim_leading_space, Htt, Hdt.
  split.
  - apply truthy_nonempty in Ht, Hd. rewrite Ht, Hd. reflexivity.
  - destruct c; reflexivity.
Qed.

Lemma pairLine_no_LF (c : Flashcard) :
  wellFormed c = true -> ~ In LF (pairLine c).
Proof.
  intros H.
  destruct (wellFormed_parts _ H) as (_ & _ & _ & Hl & _ & _ & Hdl).
  unfold pairLine. rewrite in_app_iff. simpl.
  intros [?|[E|[E|?]]]; try tauto; discriminate E.
Qed.

Lemma pairLines_read_back (cards : list Flashcard) :
  forallb wellFormed cards = true ->
  map cardOf (List.filter isPair (map pairLine cards)) = cards.
Proof.
  induction cards as [|c cards IH]; [reflexivity|].
  simpl. rewrite andb_true_iff. intros [Hc Hcs].
  destruct (pairLine_read_back _ Hc) as [-> E].
  simpl. rewrite E, (IH Hcs). reflexivity.
Qed.

Lemma responseOf_lines (c : Flashcard) (cards : list Flashcard) :
  forallb wellFormed (c :: cards) = true ->
  split LF (responseOf (c :: cards)) = map pairLine (c :: cards).
Proof.
  intros H. unfold responseOf. simpl map. apply split_join.
  change (Forall (fun x => ~ In LF x) (map pairLine (c :: cards))).
  apply List.Forall_forall. intros l Hl. apply in_map_iff in Hl as (x & <- & Hx).
  apply pairLine_no_LF.
  rewrite forallb_forall in H. apply H, Hx.
Qed.

(** C2. When the first colon-separated segment of a line is not blank,
    the term is that segment trimmed and the definition is the other
    segments rejoined with colons and trimmed, a card being made when
    that definition is not empty.  The rejoined text is the whole of
    the line after its first colon, so colons inside a definition are
    kept: [Ratio: 3:2] gives the card (Ratio, 3:2). *)
Theorem C2_term_and_definition :
  (forall (line first : jsstring) (rest : list jsstring),
     split COLON line = first :: rest ->
     trim first <> [] ->
     parseLine line
     = Normal (if truthy (trim (join COLON rest))
               then Some {| term := trim first;
                            definition := trim (join COLON rest) |}
               else None)
     /\ ~ In COLON first
     /\ (rest <> [] -> line = first ++ COLON :: join COLON rest))
  /\ parseLine (str "Ratio: 3:2") = Normal (Some (card "Ratio" "3:2")).
Proof.
  split; [|reflexivity].
  intros line first rest E Hfirst. split; [|split].
  - rewrite parseLine_eq. unfold isPair, cardOf. rewrite E.
    cbn [hd tl length]. apply truthy_nonempty in Hfirst. rewrite Hfirst.
    destruct rest as [|q rest]; [reflexivity|]. cbn [Nat.leb andb].
    reflexivity.
  - exact (split_hd_no_sep _ _ _ _ E).
  - intros Hrest. rewrite <- (join_split COLON line) at 1. rewrite E.
    destruct rest as [|q rest]; [congruence|]. apply join_cons.
Qed.

Lemma C2_term_and_definition_witness :
  split COLON (str " Noon : 12:00 ") = [str " Noon "; str " 12"; str "00 "]
  /\ trim (str " Noon ") <> []
  /\ parseLine (str " Noon : 12:00 ") = Normal (Some (card "Noon" "12:00")).
Proof.
  split; [reflexivity|]. split; [discriminate|].
  exact (proj1 (proj1 C2_term_and_definition
                  (str " Noon : 12:00 ") (str " Noon ")
                  [str " 12"; str "00 "] eq_refl ltac:(discriminate))).
Defined.

(** C3. A line gives a card exactly when it splits on the colon into at
    least two segments, its first segment trimmed is not empty, and the
    other segments rejoined with colons and trimmed are not empty; every
    other line gives [null], without raising, and is filtered out. *)
Theorem C3_line_is_pair_iff :
  (forall line : jsstring,
     let parts := split COLON line in
     ((exists c, parseLine line = Normal (Some c))
      <-> (2 <= length parts)%nat
          /\ trim (hd [] parts) <> []
          /\ trim (join COLON (tl parts)) <> [])
     /\ parseLine line
        = Normal (if isPair line then Some (cardOf line) else None))
  /\ (forall text : jsstring,
        parseResponse text
        = Normal (map cardOf (List.filter isPair (split LF text))))
  /\ parseLine (str "no colon here") = Normal None
  /\ parseLine (str ": something") = Normal None
  /\ parseLine (str "Term:   ") = Normal None
  /\ parseLine [] = Normal None.
Proof.
  split; [|split; [exact parseResponse_eq|repeat split]].
  intros line parts. split; [|apply parseLine_eq].
  rewrite parseLine_eq. unfold isPair. fold parts.
  rewrite <- !truthy_nonempty.
  destruct (Nat.leb_spec 2 (length parts)) as [Hlen|Hlen];
    destruct (truthy (trim (hd [] parts)));
    destruct (truthy (trim (join COLON (tl parts))));
    cbn [andb]; split;
    try (intros (c & [=])); try (intros (? & ? & ?));
    try discriminate; try lia; eauto.
Qed.

Lemma C3_line_is_pair_iff_witness :
  (2 <= length (split COLON (str "Ratio: 3:2")))%nat
  /\ trim (hd [] (split COLON (str "Ratio: 3:2"))) <> []
  /\ trim (join COLON (tl (split COLON (str "Ratio: 3:2")))) <> []
  /\ exists c, parseLine (str "Ratio: 3:2") = Normal (Some c).
Proof.
  assert (H1 : (2 <= length (split COLON (str "Ratio: 3:2")))%nat)
    by (apply Nat.leb_le; reflexivity).
  assert (H2 : trim (hd [] (split COLON (str "Ratio: 3:2"))) <> [])
    by discriminate.
  assert (H3 : trim (join COLON (tl (split COLON (str "Ratio: 3:2")))) <> [])
    by discriminate.
  split; [exact H1|]. split; [exact H2|]. split; [exact H3|].
  exact (proj2 (proj1 (proj1 C3_line_is_pair_iff (str "Ratio: 3:2")))
           (conj H1 (conj H2 H3))).
Defined.

(** C9. Parsing never raises: every text, whatever it contains, gives a
    list of cards, and every line gives a card or [null]. *)
Theorem C9_parser_total :
  (forall text : jsstring, exists cards, parseResponse text = Normal cards)
  /\ (forall line : jsstring, exists c, parseLine line = Normal c)
  /\ (forall line : jsstring, exists t, trimAt (split COLON line) 0 = Normal t).
Proof.
  split; [|split].
  - intros text. rewrite parseResponse_eq. eauto.
  - intros line. rewrite parseLine_eq. eauto.
  - intros line. destruct (split_cons COLON line) as (p & ps & ->).
    simpl. eauto.
Qed.

(** C10. In every card the parser returns, the term has no colon, the
    term and the definition are not empty, and neither begins or ends
    with white space. *)
Theorem C10_card_invariant (text : jsstring) (cards : list Flashcard)
    (c : Flashcard) :
  parseResponse text = Normal cards ->
  In c cards ->
  contains COLON (term c) = false
  /\ term c <> [] /\ definition c <> []
  /\ noOuterWhiteSpace (term c) = true
  /\ noOuterWhiteSpace (definition c) = true
  /\ trim (term c) = term c /\ trim (definition c) = definition c.
Proof.
  rewrite parseResponse_eq. intros [= <-] Hin.
  apply in_map_iff in Hin as (line & <- & Hline).
  apply filter_In in Hline as [_ Hpair].
  unfold isPair in Hpair. unfold cardOf. cbn [term definition].
  apply andb_true_iff in Hpair as [Hpair Hd].
  apply andb_true_iff in Hpair as [_ Ht].
  destruct (split_cons COLON line) as (p & ps & E). rewrite E in *.
  cbn [hd tl] in *.
  pose proof (trim_noOuterWhiteSpace p) as Np.
  pose proof (trim_noOuterWhiteSpace (join COLON ps)) as Nd.
  repeat split; try assumption; try (apply truthy_nonempty; assumption);
    try (apply trim_fixed; assumption).
  apply contains_false. intros H. apply trim_In in H.
  exact (split_hd_no_sep _ _ _ _ E H).
Qed.

Lemma C10_card_invariant_witness :
  parseResponse (str "  Noon : 12:00  " ++ LF :: str "::")
  = Normal [card "Noon" "12:00"]
  /\ In (card "Noon" "12:00") [card "Noon" "12:00"]
  /\ contains COLON (str "Noon") = false.
Proof.
  split; [reflexivity|]. split; [left; reflexivity|].
  exact (proj1 (C10_card_invariant
                  (str "  Noon : 12:00  " ++ LF :: str "::")
                  [card "Noon" "12:00"] (card "Noon" "12:00")
                  eq_refl (or_introl eq_refl))).
Defined.

(** ** The guards in front of the request *)


Lemma IndexTsx_click_blank_topic (G : Type) (st : IndexTsx.State G)
    (client : G) :
  IndexTsx.ai st = Some client ->
  trim (IndexTsx.topicInput st) = [] ->
  IndexTsx.generateButton_click st
  = Finished (IndexTsx.set_flashcardsContainer []
               (IndexTsx.set_errorMessage IndexTsx.MSG_EMPTY_TOPIC st)).
Proof.
  unfold IndexTsx.generateButton_click. intros -> ->. reflexivity.
Qed.

Lemma Part000_blank_topic (G : Type) (st : Part000.State G) :
  trim (Part000.topicInput st) = [] ->
  Part000.generateAndRenderCards st
  = Finished (Part000.set_errorMessage Part000.MSG_EMPTY_TOPIC st).
Proof. unfold Part000.generateAndRenderCards. intros ->. reflexivity. Qed.


(** C5. A topic that trims to the empty string is refused with the
    empty-topic message, and no request is sent.  In index.tsx this is
    the check a generation makes once it has the client it requires;
    in part_000 the topic is checked before anything else, so there it
    holds for every state of the page. *)
Theorem C5_blank_topic :
  (forall (G : Type) (st : IndexTsx.State G) (client : G)
          (upstream : G -> GenerateContentParameters -> settled),
     IndexTsx.ai st = Some client ->
     trim (IndexTsx.topicInput st) = [] ->
     IndexTsx.generate upstream st
     = (IndexTsx.set_flashcardsContainer []
          (IndexTsx.set_errorMessage IndexTsx.MSG_EMPTY_TOPIC st), []))
  /\ (forall (G : Type) (st : Part000.State G)
             (upstream : G -> GenerateContentParameters -> settled),
        trim (Part000.topicInput st) = [] ->
        Part000.generate upstream st
        = (Part000.set_errorMessage Part000.MSG_EMPTY_TOPIC st, [])).
Proof.
  split.
  - intros G st client upstream Hai Ht. unfold IndexTsx.generate.
    rewrite (IndexTsx_click_blank_topic G st client Hai Ht). reflexivity.
  - intros G st upstream Ht. unfold Part000.generate.
    rewrite (Part000_blank_topic G st Ht). reflexivity.
Qed.

Lemma C5_blank_topic_witness :
  let st := IndexTsx.set_topicInput (str "   ")
              (IndexTsx.set_ai (Some tt) (IndexTsx.blank unit)) in
  IndexTsx.ai st = Some tt
  /\ trim (IndexTsx.topicInput st) = []
  /\ IndexTsx.generate (stub (Fulfilled None)) st
     = (IndexTsx.set_flashcardsContainer []
          (IndexTsx.set_errorMessage IndexTsx.MSG_EMPTY_TOPIC st), []).
Proof.
  intros st. split; [reflexivity|]. split; [reflexivity|].
  exact (proj1 C5_blank_topic unit st tt (stub (Fulfilled None))
           eq_refl eq_refl).
Defined.



(** ** After the response *)

Lemma IndexTsx_generate_active (G : Type) (st : IndexTsx.State G) (client : G)
    (upstream : G -> GenerateContentParameters -> settled) :
  IndexTsx.ai st = Some client ->
  trim (IndexTsx.topicInput st) <> [] ->
  exists st1 request,
    IndexTsx.generate upstream st
    = (IndexTsx.generateButton_resume (upstream client request) st1, [request])
    /\ IndexTsx.flashcardsContainer st1 = []
    /\ IndexTsx.ai st1 = IndexTsx.ai st
    /\ IndexTsx.sessionStorage st1 = IndexTsx.sessionStorage st.
Proof.
  intros Hai Ht. unfold IndexTsx.generate, IndexTsx.generateButton_click.
  rewrite Hai. apply truthy_nonempty in Ht. rewrite Ht. cbn [negb].
  eexists _, _. split; [reflexivity|].
  repeat split; try reflexivity; exact Hai.
Qed.

Lemma Part000_generate_active (G : Type) (st : Part000.State G) (client : G)
    (upstream : G -> GenerateContentParameters -> settled) :
  Part000.ai st = Some client ->
  trim (Part000.topicInput st) <> [] ->
  exists st1 request,
    Part000.generate upstream st
    = (Part000.generateAndRenderCards_resume (upstream client request) st1,
       [request])
    /\ Part000.flashcardsContainer st1 = []
    /\ Part000.errorMessage st1 = []
    /\ Part000.ai st1 = Part000.ai st
    /\ Part000.sessionStorage st1 = Part000.sessionStorage st.
Proof.
  intros Hai Ht. unfold Part000.generate, Part000.generateAndRenderCards.
  rewrite Hai. apply truthy_nonempty in Ht. rewrite Ht. cbn [negb].
  eexists _, _. split; [reflexivity|].
  repeat split; try reflexivity; exact Hai.
Qed.

Lemma IndexTsx_resume_empty (G : Type) (st : IndexTsx.State G)
    (text : option jsstring) :
  default [] text = [] ->
  IndexTsx.generateButton_resume (Fulfilled text) st
  = IndexTsx.set_generateButton_disabled false
      (IndexTsx.set_errorMessage IndexTsx.MSG_EMPTY_RESPONSE st).
Proof.
  intros H. unfold IndexTsx.generateButton_resume, IndexTsx.generate_try.
  rewrite H. reflexivity.
Qed.

Lemma IndexTsx_resume_parsed (G : Type) (st : IndexTsx.State G)
    (text : jsstring) (cards : list Flashcard) :
  text <> [] ->
  parseResponse text = Normal cards ->
  IndexTsx.generateButton_resume (Fulfilled (Some text)) st
  = IndexTsx.set_generateButton_disabled false
      (match cards with
       | [] => IndexTsx.set_errorMessage IndexTsx.MSG_NO_VALID_FLASHCARDS st
       | _ :: _ =>
           IndexTsx.renderFlashcards cards (IndexTsx.set_errorMessage [] st)
       end).
Proof.
  intros Ht Hp. unfold IndexTsx.generateButton_resume, IndexTsx.generate_try.
  change (default [] (Some text)) with text.
  apply truthy_nonempty in Ht. rewrite Ht, Hp.
  destruct cards; reflexivity.
Qed.

Lemma Part000_resume_empty (G : Type) (st : Part000.State G)
    (text : option jsstring) :
  default [] text = [] ->
  Part000.generateAndRenderCards_resume (Fulfilled text) st
  = Part000.setLoading false
      (Part000.set_errorMessage Part000.MSG_EMPTY_RESPONSE
         (Part000.set_console_error
            (Part000.console_error st
             ++ [Exn (Some Part000.DETAIL_EMPTY_RESPONSE)]) st)).
Proof.
  intros H.
  unfold Part000.generateAndRenderCards_resume, Part000.generate_try.
  rewrite H. reflexivity.
Qed.

Lemma Part000_resume_parsed (G : Type) (st : Part000.State G)
    (text : jsstring) (cards : list Flashcard) :
  text <> [] ->
  parseResponse text = Normal cards ->
  Part000.generateAndRenderCards_resume (Fulfilled (Some text)) st
  = Part000.setLoading false
      (match cards with
       | [] => Part000.set_errorMessage Part000.MSG_NO_VALID_FLASHCARDS st
       | _ :: _ => Part000.renderFlashcards cards st
       end).
Proof.
  intros Ht Hp.
  unfold Part000.generateAndRenderCards_resume, Part000.generate_try.
  change (default [] (Some text)) with text.
  apply truthy_nonempty in Ht. rewrite Ht, Hp.
  destruct cards; reflexivity.
Qed.

(** C7. With a client and a topic that is not blank, a response whose
    text is empty (or missing) is reported as an empty response, and a
    response with text but no line that is a pair, such as two line
    feeds, is reported as having no valid flashcards; the two reports
    differ, and nothing is rendered in either case.  This holds in both
    variants of the page. *)
Theorem C7_empty_response_vs_no_cards :
  (forall (G : Type) (st : IndexTsx.State G) (client : G)
          (text : option jsstring),
     IndexTsx.ai st = Some client ->
     trim (IndexTsx.topicInput st) <> [] ->
     let st' := fst (IndexTsx.generate (stub (Fulfilled text)) st) in
     (default [] text = [] ->
      IndexTsx.errorMessage st' = IndexTsx.MSG_EMPTY_RESPONSE
      /\ IndexTsx.flashcardsContainer st' = [])
     /\ (default [] text <> [] ->
         parseResponse (default [] text) = Normal [] ->
         IndexTsx.errorMessage st' = IndexTsx.MSG_NO_VALID_FLASHCARDS
         /\ IndexTsx.flashcardsContainer st' = []))
  /\ (forall (G : Type) (st : Part000.State G) (client : G)
             (text : option jsstring),
        Part000.ai st = Some client ->
        trim (Part000.topicInput st) <> [] ->
        let st' := fst (Part000.generate (stub (Fulfilled text)) st) in
        (default [] text = [] ->
         Part000.errorMessage st' = Part000.MSG_EMPTY_RESPONSE
         /\ Part000.flashcardsContainer st' = [])
        /\ (default [] text <> [] ->
            parseResponse (default [] text) = Normal [] ->
            Part000.errorMessage st' = Part000.MSG_NO_VALID_FLASHCARDS
            /\ Part000.flashcardsContainer st' = []))
  /\ parseResponse [LF; LF] = Normal []
  /\ IndexTsx.MSG_EMPTY_RESPONSE <> IndexTsx.MSG_NO_VALID_FLASHCARDS
  /\ Part000.MSG_EMPTY_RESPONSE <> Part000.MSG_NO_VALID_FLASHCARDS.
Proof.
  split; [|split; [|split; [reflexivity|split; discriminate]]].
  - intros G st client text Hai Ht st'. subst st'.
    destruct (IndexTsx_generate_active G st client (stub (Fulfilled text))
                Hai Ht) as (st1 & request & -> & Hc & _).
    unfold stub. cbn [fst]. split.
    + intros He. rewrite (IndexTsx_resume_empty G st1 text He).
      split; [reflexivity|exact Hc].
    + intros Hne Hp. destruct text as [text|]; [|contradiction].
      change (default [] (Some text)) with text in Hne, Hp.
      rewrite (IndexTsx_resume_parsed G st1 text [] Hne Hp).
      split; [reflexivity|exact Hc].
  - intros G st client text Hai Ht st'. subst st'.
    destruct (Part000_generate_active G st client (stub (Fulfilled text))
                Hai Ht) as (st1 & request & -> & Hc & _).
    unfold stub. cbn [fst]. split.
    + intros He. rewrite (Part000_resume_empty G st1 text He).
      split; [reflexivity|exact Hc].
    + intros Hne Hp. destruct text as [text|]; [|contradiction].
      change (default [] (Some text)) with text in Hne, Hp.
      rewrite (Part000_resume_parsed G st1 text [] Hne Hp).
      split; [reflexivity|exact Hc].
Qed.

Lemma C7_empty_response_vs_no_cards_witness :
  let st := Part000.set_topicInput (str "Colors")
              (Part000.set_ai (Some tt) (Part000.blank unit)) in
  Part000.ai st = Some tt
  /\ trim (Part000.topicInput st) <> []
  /\ Part000.errorMessage
       (fst (Part000.generate (stub (Fulfilled (Some [LF; LF]))) st))
     = Part000.MSG_NO_VALID_FLASHCARDS
  /\ Part000.errorMessage (fst (Part000.generate (stub (Fulfilled (Some []))) st))
     = Part000.MSG_EMPTY_RESPONSE.
Proof.
  intros st. split; [reflexivity|]. split; [discriminate|]. split.
  - exact (proj1 (proj2 (proj1 (proj2 C7_empty_response_vs_no_cards)
                           unit st tt (Some [LF; LF]) eq_refl
                           ltac:(discriminate))
                   ltac:(discriminate) eq_refl)).
  - exact (proj1 (proj1 (proj1 (proj2 C7_empty_response_vs_no_cards)
                           unit st tt (Some []) eq_refl
                           ltac:(discriminate))
                   eq_refl)).
Defined.

(** ** A key the service rejects *)

Lemma marker_nonempty (m : jsstring) :
  includes INVALID_KEY_MARKER m = true -> truthy m = true.
Proof. destruct m; [discriminate|reflexivity]. Qed.

Lemma messageOr_marker (e : exn) (m : jsstring) :
  message e = Some m ->
  includes INVALID_KEY_MARKER m = true ->
  messageOr e = m.
Proof.
  intros He Hm. unfold messageOr. rewrite He, (marker_nonempty m Hm).
  reflexivity.
Qed.

(** part_000: whatever the state the handler is resumed in, a rejection
    that carries the marker removes the stored key and the client. *)
Lemma Part000_invalid_key_resets_gate (G : Type) (st : Part000.State G)
    (e : exn) (m : jsstring) :
  message e = Some m ->
  includes INVALID_KEY_MARKER m = true ->
  let st' := Part000.generateAndRenderCards_resume (Rejected e) st in
  Part000.errorMessage st' = Part000.MSG_CREDENTIAL_INVALID
  /\ Part000.ai st' = None
  /\ Part000.sessionStorage st'
     = delete API_KEY_SESSION_STORAGE_KEY (Part000.sessionStorage st)
  /\ Part000.Absent st'.
Proof.
  intros He Hm st'. subst st'.
  unfold Part000.generateAndRenderCards_resume, Part000.generate_try,
    Part000.generate_catch, Part000.Absent.
  rewrite (messageOr_marker e m He Hm), Hm.
  cbn. repeat split. apply lookup_delete_eq.
Qed.

(** index.tsx: the same rejection only changes the text shown. *)
Lemma IndexTsx_invalid_key_keeps_gate (G : Type) (st : IndexTsx.State G)
    (e : exn) (m : jsstring) :
  message e = Some m ->
  includes INVALID_KEY_MARKER m = true ->
  let st' := IndexTsx.generateButton_resume (Rejected e) st in
  IndexTsx.errorMessage st' = IndexTsx.MSG_CREDENTIAL_INVALID
  /\ IndexTsx.ai st' = IndexTsx.ai st
  /\ IndexTsx.sessionStorage st' = IndexTsx.sessionStorage st.
Proof.
  intros He Hm st'. subst st'.
  unfold IndexTsx.generateButton_resume, IndexTsx.generate_try,
    IndexTsx.generate_catch.
  rewrite (messageOr_marker e m He Hm), Hm.
  cbn. repeat split.
Qed.

(** C4, at a failing input.  index.tsx holds a client and a stored key,
    the topic is Colors, and the service rejects the request with a
    message that contains the invalid-key marker.  The page shows the
    invalid-key text, but the client and the stored key are still
    there, so the gate is not left without a credential; part_000, run
    on the same input, removes both. *)
Theorem C4_index_tsx_keeps_rejected_key :
  let rejected :=
    Rejected (Exn (Some (str "API key not valid. Please pass a valid API key."))) in
  let st :=
    IndexTsx.set_topicInput (str "Colors")
      (IndexTsx.set_sessionStorage
         {[ API_KEY_SESSION_STORAGE_KEY := str "bad-key" ]}
         (IndexTsx.set_ai (Some tt) (IndexTsx.blank unit))) in
  let st' := fst (IndexTsx.generate (stub rejected) st) in
  let pst :=
    Part000.set_topicInput (str "Colors")
      (Part000.set_sessionStorage
         {[ API_KEY_SESSION_STORAGE_KEY := str "bad-key" ]}
         (Part000.set_ai (Some tt) (Part000.blank unit))) in
  let pst' := fst (Part000.generate (stub rejected) pst) in
  IndexTsx.errorMessage st' = IndexTsx.MSG_CREDENTIAL_INVALID
  /\ IndexTsx.ai st' = Some tt
  /\ IndexTsx.sessionStorage st' !! API_KEY_SESSION_STORAGE_KEY
     = Some (str "bad-key")
  /\ ~ IndexTsx.Absent st'
  /\ Part000.errorMessage pst' = Part000.MSG_CREDENTIAL_INVALID
  /\ Part000.Absent pst'.
Proof.
  intros rejected st st' pst pst'.
  assert (Hs : IndexTsx.sessionStorage st'
               = {[ API_KEY_SESSION_STORAGE_KEY := str "bad-key" ]})
    by reflexivity.
  assert (Hp : Part000.sessionStorage pst'
               = delete API_KEY_SESSION_STORAGE_KEY
                   {[ API_KEY_SESSION_STORAGE_KEY := str "bad-key" ]})
    by reflexivity.
  split; [reflexivity|]. split; [reflexivity|]. split; [|split; [|split]].
  - rewrite Hs. apply lookup_singleton_eq.
  - intros [Hai _]. discriminate Hai.
  - reflexivity.
  - split; [reflexivity|]. rewrite Hp. apply lookup_delete_eq.
Qed.

(** ** Saving a key *)

(** C8. Saving a key that trims to the empty string reports the empty
    key and changes nothing else: the client and the session store are
    as before, whatever the constructor would have done.  When the key
    is not blank and the constructor raises, the initialization failure
    is reported, the client variable is as before, and the session
    store holds no key (index.tsx removes the one it had just written,
    part_000 had not written it); so a gate that had no credential has
    none afterwards. *)
Theorem C8_activate :
  (forall (G : Type) (new : jsstring -> completion G) (st : IndexTsx.State G),
     let st' := IndexTsx.saveApiKeyButton_click new st in
     (trim (IndexTsx.apiKeyInput st) = [] ->
      st' = IndexTsx.set_errorMessage IndexTsx.MSG_EMPTY_SECRET st
      /\ IndexTsx.ai st' = IndexTsx.ai st
      /\ IndexTsx.sessionStorage st' = IndexTsx.sessionStorage st)
     /\ (forall e : exn,
           trim (IndexTsx.apiKeyInput st) <> [] ->
           new (trim (IndexTsx.apiKeyInput st)) = Throw e ->
           IndexTsx.errorMessage st' = IndexTsx.MSG_INIT_ERROR
           /\ IndexTsx.ai st' = IndexTsx.ai st
           /\ IndexTsx.sessionStorage st' !! API_KEY_SESSION_STORAGE_KEY = None
           /\ (IndexTsx.Absent st -> IndexTsx.Absent st')))
  /\ (forall (G : Type) (new : jsstring -> completion G)
             (st : Part000.State G),
        (trim (Part000.apiKeyInput st) = [] ->
         Part000.saveApiKeyButton_click new st
         = Finished (Part000.set_alerts
                       (Part000.alerts st ++ [Part000.MSG_EMPTY_SECRET]) st))
        /\ (forall e : exn,
              trim (Part000.apiKeyInput st) <> [] ->
              new (trim (Part000.apiKeyInput st)) = Throw e ->
              exists st',
                Part000.saveApiKeyButton_click new st = Finished st'
                /\ Part000.errorMessage st' = Part000.MSG_INIT_ERROR
                /\ Part000.ai st' = Part000.ai st
                /\ Part000.sessionStorage st' = Part000.sessionStorage st
                /\ (Part000.Absent st -> Part000.Absent st'))).
Proof.
  split.
  - intros G new st st'. subst st'. unfold IndexTsx.saveApiKeyButton_click.
    split.
    + intros ->. repeat split.
    + intros e Hk Hnew. apply truthy_nonempty in Hk. rewrite Hk.
      unfold IndexTsx.initializeApp. rewrite Hnew. cbn.
      assert (Hgone : delete API_KEY_SESSION_STORAGE_KEY
                (<[API_KEY_SESSION_STORAGE_KEY := trim (IndexTsx.apiKeyInput st)]>
                   (IndexTsx.sessionStorage st))
              !! API_KEY_SESSION_STORAGE_KEY = None)
        by apply lookup_delete_eq.
      repeat split; try exact Hgone.
      destruct H as [Hai _]. exact Hai.
  - intros G new st. unfold Part000.saveApiKeyButton_click. split.
    + intros ->. reflexivity.
    + intros e Hk Hnew. apply truthy_nonempty in Hk. rewrite Hk.
      unfold Part000.initializeAi. rewrite Hnew.
      eexists. split; [reflexivity|]. cbn. repeat split.
      * destruct H as [Hai _]. exact Hai.
      * destruct H as [_ Hs]. exact Hs.
Qed.

(** ** From topic to cards *)

(** C1. A response made of lines [Term: Definition] is parsed into
    exactly the cards it was written from, in line order; so the text
    with the lines [A: B] and [C: D] gives the cards (A,B), (C,D), and
    the text with the lines [Red: A warm color] and [Blue: A cool color]
    gives those two cards in that order.  With a client and the topic
    Colors, both variants of the page send one request and, when the
    service answers with that second text, render exactly those two
    cards and show no error. *)
Theorem C1_parse_well_formed :
  (forall cards : list Flashcard,
     forallb wellFormed cards = true ->
     parseResponse (responseOf cards) = Normal cards)
  /\ parseResponse (str "A: B" ++ LF :: str "C: D")
     = Normal [card "A" "B"; card "C" "D"]
  /\ parseResponse (str "Red: A warm color" ++ LF :: str "Blue: A cool color")
     = Normal [card "Red" "A warm color"; card "Blue" "A cool color"]
  /\ (forall (G : Type) (st : IndexTsx.State G) (client : G),
        IndexTsx.ai st = Some client ->
        IndexTsx.topicInput st = str "Colors" ->
        let out :=
          IndexTsx.generate
            (stub (Fulfilled (Some (str "Red: A warm color" ++ LF
                                    :: str "Blue: A cool color")))) st in
        IndexTsx.flashcardsContainer (fst out)
        = [card "Red" "A warm color"; card "Blue" "A cool color"]
        /\ IndexTsx.errorMessage (fst out) = []
        /\ snd out = [ {| model := str "gemini-2.5-flash";
                          contents := IndexTsx.prompt (str "Colors") |} ])
  /\ (forall (G : Type) (st : Part000.State G) (client : G),
        Part000.ai st = Some client ->
        Part000.topicInput st = str "Colors" ->
        let out :=
          Part000.generate
            (stub (Fulfilled (Some (str "Red: A warm color" ++ LF
                                    :: str "Blue: A cool color")))) st in
        Part000.flashcardsContainer (fst out)
        = [card "Red" "A warm color"; card "Blue" "A cool color"]
        /\ Part000.errorMessage (fst out) = []
        /\ snd out = [ {| model := str "gemini-2.5-flash";
                          contents := Part000.prompt (str "Colors") |} ]).
Proof.
  split; [|split; [reflexivity|split; [reflexivity|split]]].
  - intros cards H. rewrite parseResponse_eq.
    destruct cards as [|c cards]; [reflexivity|].
    rewrite (responseOf_lines _ _ H). f_equal. apply pairLines_read_back, H.
  - intros G st client Hai Ht out. subst out.
    unfold IndexTsx.generate, IndexTsx.generateButton_click.
    rewrite Hai, Ht. repeat split.
  - intros G st client Hai Ht out. subst out.
    unfold Part000.generate, Part000.generateAndRenderCards.
    rewrite Hai, Ht. repeat split.
Qed.

Lemma C1_parse_well_formed_witness :
  forallb wellFormed [card "Ratio" "3:2"; card "Red" "A warm color"] = true
  /\ parseResponse (responseOf [card "Ratio" "3:2"; card "Red" "A warm color"])
     = Normal [card "Ratio" "3:2"; card "Red" "A warm color"].
Proof.
  split; [reflexivity|].
  apply (proj1 C1_parse_well_formed). reflexivity.
Defined.

Lemma C8_activate_witness :
  let new := fun _ : jsstring => @Throw unit (Exn None) in
  let st := IndexTsx.set_apiKeyInput (str " bad-key ") (IndexTsx.blank unit) in
  trim (IndexTsx.apiKeyInput st) <> []
  /\ new (trim (IndexTsx.apiKeyInput st)) = Throw (Exn None)
  /\ IndexTsx.Absent st
  /\ IndexTsx.errorMessage (IndexTsx.saveApiKeyButton_click new st)
     = IndexTsx.MSG_INIT_ERROR
  /\ IndexTsx.Absent (IndexTsx.saveApiKeyButton_click new st).
Proof.
  intros new st.
  assert (Hk : trim (IndexTsx.apiKeyInput st) <> []) by discriminate.
  assert (Ha : IndexTsx.Absent st) by (split; [reflexivity|apply lookup_empty]).
  pose proof (proj2 (proj1 C8_activate unit new st) (Exn None) Hk eq_refl)
    as (Hmsg & _ & _ & Habs).
  split; [exact Hk|]. split; [reflexivity|]. split; [exact Ha|].
  split; [exact Hmsg|exact (Habs Ha)].
Defined.

(** ** More about the parser *)

Lemma split_app (sep : N) (a b : jsstring) :
  split sep (a ++ sep :: b) = split sep a ++ split sep b.
Proof.
  induction a as [|c a IH]; simpl.
  - rewrite N.eqb_refl. reflexivity.
  - destruct (c =? sep); [rewrite IH; reflexivity|].
    rewrite IH. destruct (split_cons sep a) as (p & ps & ->). reflexivity.
Qed.

Lemma split_length (sep : N) (s : jsstring) :
  length (split sep s) = S (length (List.filter (N.eqb sep) s)).
Proof.
  induction s as [|c s IH]; [reflexivity|]. simpl.
  rewrite (N.eqb_sym sep c). destruct (c =? sep); simpl.
  - rewrite IH. reflexivity.
  - destruct (split_cons sep s) as (p & ps & E). rewrite E in *.
    exact IH.
Qed.

Lemma split_no_sep_all (sep : N) (s : jsstring) :
  Forall (fun p => ~ In sep p) (split sep s).
Proof.
  induction s as [|c s IH]; simpl.
  - constructor; [tauto|constructor].
  - destruct (N.eqb_spec c sep) as [->|Hne].
    + constructor; [tauto|exact IH].
    + destruct (split_cons sep s) as (p & ps & E). rewrite E in *.
      inversion IH as [|? ? Hp Hps]; subst. constructor; [|exact Hps].
      intros [H|H]; [congruence|tauto].
Qed.

(** X1. The cards of two texts joined by a line feed are the cards of
    the first followed by the cards of the second: lines are read
    independently and in order, and nothing is merged or deduplicated. *)
Theorem parseResponse_app (a b : jsstring) (ca cb : list Flashcard) :
  parseResponse a = Normal ca ->
  parseResponse b = Normal cb ->
  parseResponse (a ++ LF :: b) = Normal (ca ++ cb).
Proof.
  rewrite !parseResponse_eq, split_app, List.filter_app, List.map_app.
  intros [= <-] [= <-]. reflexivity.
Qed.

Lemma parseResponse_app_witness :
  parseResponse (str "A: B") = Normal [card "A" "B"]
  /\ parseResponse (str "skip" ++ LF :: str "A: B")
     = Normal [card "A" "B"]
  /\ parseResponse (str "A: B" ++ LF :: str "skip" ++ LF :: str "A: B")
     = Normal [card "A" "B"; card "A" "B"].
Proof.
  split; [reflexivity|]. split; [reflexivity|].
  exact (parseResponse_app (str "A: B") (str "skip" ++ LF :: str "A: B")
           [card "A" "B"] [card "A" "B"] eq_refl eq_refl).
Defined.

(** X2. A response never gives more cards than it has lines, that is,
    one more than it has line feeds. *)
Theorem parseResponse_length (text : jsstring) (cards : list Flashcard) :
  parseResponse text = Normal cards ->
  (length cards <= S (countLF text))%nat.
Proof.
  rewrite parseResponse_eq. intros [= <-].
  rewrite List.length_map. unfold countLF. rewrite <- split_length.
  apply List.filter_length_le.
Qed.

Lemma parseResponse_length_witness :
  parseResponse (str "A: B" ++ LF :: str "no colon") = Normal [card "A" "B"]
  /\ (length [card "A" "B"] <= S (countLF (str "A: B" ++ LF :: str "no colon")))%nat.
Proof.
  split; [reflexivity|].
  exact (parseResponse_length (str "A: B" ++ LF :: str "no colon")
           [card "A" "B"] eq_refl).
Defined.

Lemma parseResponse_responseOf (cards : list Flashcard) :
  forallb wellFormed cards = true ->
  parseResponse (responseOf cards) = Normal cards.
Proof.
  intros H. rewrite parseResponse_eq.
  destruct cards as [|c cards]; [reflexivity|].
  rewrite (responseOf_lines _ _ H). f_equal. apply pairLines_read_back, H.
Qed.

Lemma cardOf_wellFormed (line : jsstring) :
  ~ In LF line -> isPair line = true -> wellFormed (cardOf line) = true.
Proof.
  intros Hlf Hpair. unfold isPair in Hpair. unfold wellFormed, cardOf.
  cbn [term definition].
  apply andb_true_iff in Hpair as [Hpair Hd].
  apply andb_true_iff in Hpair as [Hlen Ht].
  pose proof (join_split COLON line) as Hjoin.
  destruct (split_cons COLON line) as (p & ps & E). rewrite E in *.
  cbn [hd tl length] in *.
  destruct ps as [|q ps]; [discriminate Hlen|].
  rewrite join_cons in Hjoin.
  rewrite Ht, Hd, !trim_noOuterWhiteSpace. cbn [andb].
  assert (H1 : contains COLON (trim p) = false).
  { apply contains_false. intros H. apply trim_In in H.
    exact (split_hd_no_sep _ _ _ _ E H). }
  assert (H2 : contains LF (trim p) = false).
  { apply contains_false. intros H. apply trim_In in H. apply Hlf.
    rewrite <- Hjoin. apply in_or_app. left. exact H. }
  assert (H3 : contains LF (trim (join COLON (q :: ps))) = false).
  { apply contains_false. intros H. apply trim_In in H. apply Hlf.
    rewrite <- Hjoin. apply in_or_app. right. right. exact H. }
  rewrite H1, H2, H3. reflexivity.
Qed.

(** X3. Every list of cards the parser returns can be written back one
    [Term: Definition] line per card and parsed again to the same list:
    the cards are well formed (term and definition not empty, trimmed,
    on one line, no colon in the term). *)
Theorem parseResponse_round_trip (text : jsstring) (cards : list Flashcard) :
  parseResponse text = Normal cards ->
  forallb wellFormed cards = true
  /\ parseResponse (responseOf cards) = Normal cards.
Proof.
  rewrite parseResponse_eq. intros [= <-].
  assert (H : forallb wellFormed
                (map cardOf (List.filter isPair (split LF text))) = true).
  { apply forallb_forall. intros c Hc.
    apply in_map_iff in Hc as (line & <- & Hline).
    apply filter_In in Hline as [Hin Hpair].
    apply cardOf_wellFormed; [|exact Hpair].
    pose proof (split_no_sep_all LF text) as Hall.
    rewrite List.Forall_forall in Hall. exact (Hall line Hin). }
  split; [exact H|]. apply parseResponse_responseOf, H.
Qed.

Lemma parseResponse_round_trip_witness :
  parseResponse (str "  Noon : 12:00  " ++ LF :: str "::")
  = Normal [card "Noon" "12:00"]
  /\ parseResponse (responseOf [card "Noon" "12:00"])
     = Normal [card "Noon" "12:00"].
Proof.
  split; [reflexivity|].
  exact (proj2 (parseResponse_round_trip
                  (str "  Noon : 12:00  " ++ LF :: str "::")
                  [card "Noon" "12:00"] eq_refl)).
Defined.

Lemma first_colon (line : jsstring) :
  In COLON line ->
  exists p r, line = p ++ COLON :: r /\ ~ In COLON p.
Proof.
  induction line as [|c line IH]; [intros []|].
  destruct (N.eq_dec c COLON) as [->|Hne].
  - intros _. exists [], line. split; [reflexivity|tauto].
  - intros [H|H]; [congruence|].
    destruct (IH H) as (p & r & -> & Hp).
    exists (c :: p), r. split; [reflexivity|].
    intros [E|E]; [congruence|tauto].
Qed.

Lemma parseLine_no_colon (line : jsstring) :
  ~ In COLON line -> parseLine line = Normal None.
Proof.
  intros H. rewrite parseLine_eq. unfold isPair.
  rewrite (split_no_sep COLON line H). reflexivity.
Qed.

Lemma parseLine_first_colon (p r : jsstring) :
  ~ In COLON p ->
  parseLine (p ++ COLON :: r)
  = Normal (if truthy (trim p) && truthy (trim r)
            then Some {| term := trim p; definition := trim r |}
            else None).
Proof.
  intros H. rewrite parseLine_eq. unfold isPair, cardOf.
  rewrite (split_app_sep COLON p r H).
  cbn [hd tl length]. rewrite (join_split COLON r).
  destruct (split_cons COLON r) as (q & qs & ->). reflexivity.
Qed.

Lemma whiteSpace_not_colon (c : N) : isWhiteSpace c = true -> c <> COLON.
Proof. intros H ->. discriminate H. Qed.

Lemma trim_cons_whiteSpace (c : N) (s : jsstring) :
  isWhiteSpace c = true -> trim (c :: s) = trim s.
Proof. intros H. unfold trim. simpl. rewrite H. reflexivity. Qed.

Lemma trimStart_snoc_whiteSpace (c : N) (s : jsstring) :
  isWhiteSpace c = true ->
  trimStart (s ++ [c])
  = match trimStart s with
    | [] => []
    | _ :: _ => trimStart s ++ [c]
    end.
Proof.
  intros H. induction s as [|x s IH]; simpl.
  - rewrite H. reflexivity.
  - destruct (isWhiteSpace x); [exact IH|reflexivity].
Qed.

Lemma trimEnd_snoc_whiteSpace (c : N) (s : jsstring) :
  isWhiteSpace c = true -> trimEnd (s ++ [c]) = trimEnd s.
Proof.
  intros H. unfold trimEnd. rewrite rev_app_distr. simpl. rewrite H.
  reflexivity.
Qed.

Lemma trim_snoc_whiteSpace (c : N) (s : jsstring) :
  isWhiteSpace c = true -> trim (s ++ [c]) = trim s.
Proof.
  intros H. unfold trim. rewrite (trimStart_snoc_whiteSpace c s H).
  destruct (trimStart s) as [|x t] eqn:E; [reflexivity|].
  apply trimEnd_snoc_whiteSpace, H.
Qed.

Lemma parseLine_snoc_whiteSpace (c : N) (line : jsstring) :
  isWhiteSpace c = true -> parseLine (line ++ [c]) = parseLine line.
Proof.
  intros H. pose proof (whiteSpace_not_colon c H) as Hc.
  destruct (in_dec N.eq_dec COLON line) as [Hin|Hnot].
  - destruct (first_colon line Hin) as (p & r & -> & Hp).
    rewrite <- app_assoc.
    change ((COLON :: r) ++ [c]) with (COLON :: (r ++ [c])).
    rewrite (parseLine_first_colon p (r ++ [c]) Hp),
      (parseLine_first_colon p r Hp), (trim_snoc_whiteSpace c r H).
    reflexivity.
  - assert (H2 : ~ In COLON (line ++ [c])).
    { rewrite in_app_iff. simpl. intros [E|[E|[]]]; [tauto|congruence]. }
    rewrite (parseLine_no_colon _ H2), (parseLine_no_colon _ Hnot).
    reflexivity.
Qed.

(** X4. White space around a line does not matter: a line with one
    more white-space character in front of it or behind it, such as the
    carriage return of a Windows line ending, gives the same card or
    the same [null]. *)
Theorem parseLine_outer_whiteSpace (c : N) (line : jsstring) :
  isWhiteSpace c = true ->
  parseLine (c :: line) = parseLine line
  /\ parseLine (line ++ [c]) = parseLine line.
Proof.
  intros H. split; [|exact (parseLine_snoc_whiteSpace c line H)].
  pose proof (whiteSpace_not_colon c H) as Hc.
  destruct (in_dec N.eq_dec COLON line) as [Hin|Hnot].
  - destruct (first_colon line Hin) as (p & r & -> & Hp).
    assert (Hcp : ~ In COLON (c :: p)).
    { intros [E|E]; [congruence|tauto]. }
    change (c :: p ++ COLON :: r) with ((c :: p) ++ COLON :: r).
    rewrite (parseLine_first_colon (c :: p) r Hcp),
      (parseLine_first_colon p r Hp), (trim_cons_whiteSpace c p H).
    reflexivity.
  - assert (H1 : ~ In COLON (c :: line)).
    { intros [E|E]; [congruence|tauto]. }
    rewrite (parseLine_no_colon _ H1), (parseLine_no_colon _ Hnot).
    reflexivity.
Qed.

Lemma parseLine_outer_whiteSpace_witness :
  isWhiteSpace CR = true
  /\ parseLine (str "Red: A warm color" ++ [CR])
     = parseLine (str "Red: A warm color").
Proof.
  split; [reflexivity|].
  exact (proj2 (parseLine_outer_whiteSpace CR (str "Red: A warm color")
                  eq_refl)).
Defined.

Lemma mapM_parseLine_ext (f : jsstring -> jsstring) (lines : list jsstring) :
  (forall l, parseLine (f l) = parseLine l) ->
  mapM parseLine (map f lines) = mapM parseLine lines.
Proof.
  intros H. induction lines as [|l lines IH]; [reflexivity|].
  simpl. rewrite H, IH. reflexivity.
Qed.

(** X5. A response sent with Windows line endings gives the same cards:
    putting a carriage return at the end of every line of a text does
    not change what is parsed from it. *)
Theorem parseResponse_carriage_returns (text : jsstring) :
  parseResponse (join LF (map (fun l => l ++ [CR]) (split LF text)))
  = parseResponse text.
Proof.
  unfold parseResponse.
  assert (Hs : split LF (join LF (map (fun l => l ++ [CR]) (split LF text)))
               = map (fun l => l ++ [CR]) (split LF text)).
  { pose proof (split_no_sep_all LF text) as Hall.
    destruct (split_cons LF text) as (p & ps & E). rewrite E in *.
    cbn [map]. apply split_join.
    change (Forall (fun x => ~ In LF x)
              (map (fun l => l ++ [CR]) (p :: ps))).
    apply List.Forall_forall. intros l Hl.
    apply in_map_iff in Hl as (x & <- & Hx).
    rewrite List.Forall_forall in Hall. specialize (Hall x Hx).
    rewrite in_app_iff. simpl. intros [?|[?|[]]]; [tauto|discriminate]. }
  rewrite Hs, (mapM_parseLine_ext (fun l => l ++ [CR])); [reflexivity|].
  intros l. apply (parseLine_snoc_whiteSpace CR l eq_refl).
Qed.

(** ** More about a generation *)

(** X6. A request leaves the page exactly when there is a client and
    the topic is not blank, and then it is a single request for the
    model gemini-2.5-flash whose contents are the instruction text with
    the trimmed topic put between its first pair of double quotes,
    unchanged.  This holds in both variants, whatever the service
    answers. *)
Theorem generate_requests :
  (forall (G : Type) (st : IndexTsx.State G)
          (upstream : G -> GenerateContentParameters -> settled),
     snd (IndexTsx.generate upstream st)
     = if negb (bool_decide (IndexTsx.ai st = None))
          && truthy (trim (IndexTsx.topicInput st))
       then [ {| model := str "gemini-2.5-flash";
                 contents := IndexTsx.prompt (trim (IndexTsx.topicInput st)) |} ]
       else [])
  /\ (forall (G : Type) (st : Part000.State G)
             (upstream : G -> GenerateContentParameters -> settled),
        snd (Part000.generate upstream st)
        = if negb (bool_decide (Part000.ai st = None))
             && truthy (trim (Part000.topicInput st))
          then [ {| model := str "gemini-2.5-flash";
                    contents := Part000.prompt (trim (Part000.topicInput st)) |} ]
          else [])
  /\ (exists before after : jsstring,
        ~ In QUOTE before
        /\ forall topic, IndexTsx.prompt topic
                         = before ++ QUOTE :: topic ++ QUOTE :: after)
  /\ (exists before after : jsstring,
        ~ In QUOTE before
        /\ forall topic, Part000.prompt topic
                         = before ++ QUOTE :: topic ++ QUOTE :: after).
Proof.
  split; [|split; [|split]].
  - intros G st upstream. unfold IndexTsx.generate, IndexTsx.generateButton_click.
    destruct (IndexTsx.ai st) as [client|]; [|reflexivity].
    destruct (truthy (trim (IndexTsx.topicInput st))); reflexivity.
  - intros G st upstream. unfold Part000.generate, Part000.generateAndRenderCards.
    destruct (truthy (trim (Part000.topicInput st))).
    + destruct (Part000.ai st) as [client|]; reflexivity.
    + destruct (Part000.ai st) as [client|]; reflexivity.
  - eexists _, _. split; cycle 1.
    { intros topic. unfold IndexTsx.prompt. reflexivity. }
    apply contains_false. vm_compute. reflexivity.
  - eexists _, _. split; cycle 1.
    { intros topic. unfold Part000.prompt. reflexivity. }
    apply contains_false. vm_compute. reflexivity.
Qed.

Lemma errorPrefix_nonempty (s : jsstring) :
  IndexTsx.MSG_ERROR_PREFIX ++ s <> [] /\ Part000.MSG_ERROR_PREFIX ++ s <> [].
Proof. split; discriminate. Qed.

Lemma IndexTsx_resume_fulfilled (G : Type) (st : IndexTsx.State G)
    (text : option jsstring) :
  IndexTsx.generateButton_resume (Fulfilled text) st
  = IndexTsx.set_generateButton_disabled false
      (if truthy (default [] text) then
         match map cardOf (List.filter isPair (split LF (default [] text))) with
         | [] => IndexTsx.set_errorMessage IndexTsx.MSG_NO_VALID_FLASHCARDS st
         | c :: cs =>
             IndexTsx.renderFlashcards (c :: cs)
               (IndexTsx.set_errorMessage [] st)
         end
       else IndexTsx.set_errorMessage IndexTsx.MSG_EMPTY_RESPONSE st).
Proof.
  unfold IndexTsx.generateButton_resume, IndexTsx.generate_try.
  rewrite parseResponse_eq.
  destruct (truthy (default [] text)); [|reflexivity].
  destruct (map cardOf _); reflexivity.
Qed.

Lemma Part000_resume_fulfilled (G : Type) (st : Part000.State G)
    (text : option jsstring) :
  Part000.generateAndRenderCards_resume (Fulfilled text) st
  = Part000.setLoading false
      (if truthy (default [] text) then
         match map cardOf (List.filter isPair (split LF (default [] text))) with
         | [] => Part000.set_errorMessage Part000.MSG_NO_VALID_FLASHCARDS st
         | c :: cs => Part000.renderFlashcards (c :: cs) st
         end
       else
         Part000.set_errorMessage Part000.MSG_EMPTY_RESPONSE
           (Part000.set_console_error
              (Part000.console_error st
               ++ [Exn (Some Part000.DETAIL_EMPTY_RESPONSE)]) st)).
Proof.
  unfold Part000.generateAndRenderCards_resume, Part000.generate_try.
  rewrite parseResponse_eq.
  destruct (truthy (default [] text)); [|reflexivity].
  destruct (map cardOf _); reflexivity.
Qed.

Lemma empty_text_no_cards (text : option jsstring) :
  truthy (default [] text) = false ->
  map cardOf (List.filter isPair (split LF (default [] text))) = [].
Proof. destruct text as [[|c t]|]; [reflexivity|discriminate|reflexivity]. Qed.

(** X7. When a click is followed by the settlement of its request with
    no other listener running in between, and there is a client and a
    topic that is not blank, what is rendered is exactly the list of
    cards parsed from the response text, in line order, and nothing
    when the request is rejected; the page then shows either cards or a
    message, never both and never neither.  In whatever state the page
    is when the request settles: a response with at least one pair
    puts exactly its cards in the container (index.tsx also empties the
    message, part_000 leaves the message as it is); any other outcome
    shows a message that is not empty and leaves the container as it
    is, except that index.tsx empties it on a rejection. *)
Theorem generate_outcome :
  (forall (G : Type) (st : IndexTsx.State G) (client : G) (r : settled),
     IndexTsx.ai st = Some client ->
     trim (IndexTsx.topicInput st) <> [] ->
     let st' := fst (IndexTsx.generate (stub r) st) in
     IndexTsx.flashcardsContainer st'
     = match r with
       | Fulfilled text =>
           map cardOf (List.filter isPair (split LF (default [] text)))
       | Rejected _ => []
       end
     /\ (IndexTsx.errorMessage st' = []
         <-> IndexTsx.flashcardsContainer st' <> []))
  /\ (forall (G : Type) (st : Part000.State G) (client : G) (r : settled),
        Part000.ai st = Some client ->
        trim (Part000.topicInput st) <> [] ->
        let st' := fst (Part000.generate (stub r) st) in
        Part000.flashcardsContainer st'
        = match r with
          | Fulfilled text =>
              map cardOf (List.filter isPair (split LF (default [] text)))
          | Rejected _ => []
          end
        /\ (Part000.errorMessage st' = []
            <-> Part000.flashcardsContainer st' <> []))
  /\ (forall (G : Type) (st : IndexTsx.State G) (r : settled),
        let st' := IndexTsx.generateButton_resume r st in
        let cards :=
          match r with
          | Fulfilled text =>
              map cardOf (List.filter isPair (split LF (default [] text)))
          | Rejected _ => []
          end in
        (cards <> [] ->
         IndexTsx.flashcardsContainer st' = cards
         /\ IndexTsx.errorMessage st' = [])
        /\ (cards = [] ->
            IndexTsx.errorMessage st' <> []
            /\ IndexTsx.flashcardsContainer st'
               = match r with
                 | Fulfilled _ => IndexTsx.flashcardsContainer st
                 | Rejected _ => []
                 end))
  /\ (forall (G : Type) (st : Part000.State G) (r : settled),
        let st' := Part000.generateAndRenderCards_resume r st in
        let cards :=
          match r with
          | Fulfilled text =>
              map cardOf (List.filter isPair (split LF (default [] text)))
          | Rejected _ => []
          end in
        (cards <> [] ->
         Part000.flashcardsContainer st' = cards
         /\ Part000.errorMessage st' = Part000.errorMessage st)
        /\ (cards = [] ->
            Part000.errorMessage st' <> []
            /\ Part000.flashcardsContainer st'
               = Part000.flashcardsContainer st)).
Proof.
  split; [|split; [|split]].
  - intros G st client r Hai Ht st'. subst st'.
    destruct (IndexTsx_generate_active G st client (stub r) Hai Ht)
      as (st1 & request & -> & Hc & _).
    unfold stub. cbn [fst]. destruct r as [text|e].
    + rewrite IndexTsx_resume_fulfilled.
      destruct (truthy (default [] text)) eqn:Etext.
      * destruct (map cardOf _) as [|c cs]; cbn.
        -- rewrite Hc. split; [reflexivity|]. split; [discriminate|tauto].
        -- split; [reflexivity|]. split; [discriminate|reflexivity].
      * rewrite (empty_text_no_cards text Etext). cbn. rewrite Hc.
        split; [reflexivity|]. split; [discriminate|tauto].
    + unfold IndexTsx.generateButton_resume, IndexTsx.generate_try,
        IndexTsx.generate_catch. cbn.
      split; [reflexivity|]. split; [|tauto].
      intros H. destruct (proj1 (errorPrefix_nonempty _) H).
  - intros G st client r Hai Ht st'. subst st'.
    destruct (Part000_generate_active G st client (stub r) Hai Ht)
      as (st1 & request & -> & Hc & He & _).
    unfold stub. cbn [fst]. destruct r as [text|e].
    + rewrite Part000_resume_fulfilled.
      destruct (truthy (default [] text)) eqn:Etext.
      * destruct (map cardOf _) as [|c cs]; cbn.
        -- rewrite Hc. split; [reflexivity|]. split; [discriminate|tauto].
        -- rewrite He. split; [reflexivity|].
           split; [discriminate|reflexivity].
      * rewrite (empty_text_no_cards text Etext). cbn. rewrite Hc.
        split; [reflexivity|]. split; [discriminate|tauto].
    + unfold Part000.generateAndRenderCards_resume, Part000.generate_try,
        Part000.generate_catch.
      destruct (includes INVALID_KEY_MARKER (messageOr e)); cbn; rewrite Hc;
        (split; [reflexivity|]); (split; [|tauto]); intros H;
        destruct (proj2 (errorPrefix_nonempty _) H).
  - intros G st r st' cards. subst st' cards. destruct r as [text|e].
    + rewrite IndexTsx_resume_fulfilled.
      destruct (truthy (default [] text)) eqn:Etext.
      * destruct (map cardOf _) as [|c cs]; cbn; split; intros H;
          try congruence; split; try reflexivity; discriminate.
      * rewrite (empty_text_no_cards text Etext). cbn.
        split; [congruence|]. intros _. split; [discriminate|reflexivity].
    + unfold IndexTsx.generateButton_resume, IndexTsx.generate_try,
        IndexTsx.generate_catch. cbn.
      split; [congruence|]. intros _. split; [|reflexivity].
      apply (proj1 (errorPrefix_nonempty _)).
  - intros G st r st' cards. subst st' cards. destruct r as [text|e].
    + rewrite Part000_resume_fulfilled.
      destruct (truthy (default [] text)) eqn:Etext.
      * destruct (map cardOf _) as [|c cs]; cbn; split; intros H;
          try congruence; split; try reflexivity; discriminate.
      * rewrite (empty_text_no_cards text Etext). cbn.
        split; [congruence|]. intros _. split; [discriminate|reflexivity].
    + unfold Part000.generateAndRenderCards_resume, Part000.generate_try,
        Part000.generate_catch.
      destruct (includes INVALID_KEY_MARKER (messageOr e)); cbn;
        (split; [congruence|]); intros _; (split; [|reflexivity]);
        apply (proj2 (errorPrefix_nonempty _)).
Qed.

Lemma generate_outcome_witness :
  let st := IndexTsx.set_topicInput (str "Ratios")
              (IndexTsx.set_ai (Some tt) (IndexTsx.blank unit)) in
  IndexTsx.ai st = Some tt
  /\ trim (IndexTsx.topicInput st) <> []
  /\ IndexTsx.flashcardsContainer
       (fst (IndexTsx.generate
               (stub (Fulfilled (Some (str "Here you go" ++ LF
                                        :: str "Ratio: 3:2")))) st))
     = [card "Ratio" "3:2"].
Proof.
  intros st. split; [reflexivity|]. split; [discriminate|].
  exact (proj1 (proj1 generate_outcome unit st tt
                  (Fulfilled (Some (str "Here you go" ++ LF
                                    :: str "Ratio: 3:2")))
                  eq_refl ltac:(discriminate))).
Defined.

(** X8. While the request is pending the generate button is disabled,
    and when the request settles the button is enabled again whatever
    the outcome and whatever happened to the page meanwhile; part_000
    also shows the spinner for exactly that time. *)
Theorem generate_button_guard :
  (forall (G : Type) (st st1 : IndexTsx.State G) (client : G)
          (request : GenerateContentParameters),
     IndexTsx.generateButton_click st = Awaiting st1 client request ->
     IndexTsx.generateButton_disabled st1 = true)
  /\ (forall (G : Type) (st : IndexTsx.State G) (r : settled),
        IndexTsx.generateButton_disabled (IndexTsx.generateButton_resume r st)
        = false)
  /\ (forall (G : Type) (st st1 : Part000.State G) (client : G)
             (request : GenerateContentParameters),
        Part000.generateAndRenderCards st = Awaiting st1 client request ->
        Part000.generateButton_disabled st1 = true
        /\ Part000.spinner_hidden st1 = false
        /\ Part000.buttonText_hidden st1 = true)
  /\ (forall (G : Type) (st : Part000.State G) (r : settled),
        let st' := Part000.generateAndRenderCards_resume r st in
        Part000.generateButton_disabled st' = false
        /\ Part000.spinner_hidden st' = true
        /\ Part000.buttonText_hidden st' = false).
Proof.
  split; [|split; [|split]].
  - intros G st st1 client request. unfold IndexTsx.generateButton_click.
    destruct (IndexTsx.ai st); [|discriminate].
    destruct (truthy (trim (IndexTsx.topicInput st))); [|discriminate].
    intros [= <- _ _]. reflexivity.
  - intros G st r. reflexivity.
  - intros G st st1 client request. unfold Part000.generateAndRenderCards.
    destruct (truthy (trim (Part000.topicInput st))); [|discriminate].
    destruct (Part000.ai st); [|discriminate].
    intros [= <- _ _]. repeat split.
  - intros G st r. repeat split.
Qed.

Lemma generate_button_guard_witness :
  let st := IndexTsx.set_topicInput (str "Colors")
              (IndexTsx.set_ai (Some tt) (IndexTsx.blank unit)) in
  exists st1 request,
    IndexTsx.generateButton_click st = Awaiting st1 tt request
    /\ IndexTsx.generateButton_disabled st1 = true.
Proof.
  intros st. eexists _, _. split; [reflexivity|].
  exact (proj1 generate_button_guard unit st _ tt _ eq_refl).
Defined.

(** X9. A rejection whose message does not contain the invalid-key
    marker is shown as "An error occurred: " followed by that message,
    or by "An unknown error occurred" when the thrown value has no
    message or an empty one; the client and the session store are left
    as they were.  This holds in both variants. *)
Theorem upstream_error_passthrough :
  (forall e : exn,
     message e = None \/ message e = Some [] ->
     messageOr e = str "An unknown error occurred")
  /\ (forall (e : exn) (m : jsstring),
        message e = Some m -> m <> [] -> messageOr e = m)
  /\ (forall (G : Type) (st : IndexTsx.State G) (e : exn),
        includes INVALID_KEY_MARKER (messageOr e) = false ->
        let st' := IndexTsx.generateButton_resume (Rejected e) st in
        IndexTsx.errorMessage st' = str "An error occurred: " ++ messageOr e
        /\ IndexTsx.ai st' = IndexTsx.ai st
        /\ IndexTsx.sessionStorage st' = IndexTsx.sessionStorage st)
  /\ (forall (G : Type) (st : Part000.State G) (e : exn),
        includes INVALID_KEY_MARKER (messageOr e) = false ->
        let st' := Part000.generateAndRenderCards_resume (Rejected e) st in
        Part000.errorMessage st' = str "An error occurred: " ++ messageOr e
        /\ Part000.ai st' = Part000.ai st
        /\ Part000.sessionStorage st' = Part000.sessionStorage st).
Proof.
  split; [|split; [|split]].
  - intros [m] [H|H]; simpl in H; subst; reflexivity.
  - intros [m'] m H Hm. simpl in H. subst. unfold messageOr. simpl.
    apply truthy_nonempty in Hm. rewrite Hm. reflexivity.
  - intros G st e H st'. subst st'.
    unfold IndexTsx.generateButton_resume, IndexTsx.generate_try,
      IndexTsx.generate_catch. rewrite H. repeat split.
  - intros G st e H st'. subst st'.
    unfold Part000.generateAndRenderCards_resume, Part000.generate_try,
      Part000.generate_catch. rewrite H. repeat split.
Qed.

Lemma upstream_error_passthrough_witness :
  let e := Exn (Some (str "Failed to fetch")) in
  includes INVALID_KEY_MARKER (messageOr e) = false
  /\ Part000.errorMessage
       (Part000.generateAndRenderCards_resume (Rejected e) (Part000.blank unit))
     = str "An error occurred: Failed to fetch".
Proof.
  intros e. split; [reflexivity|].
  exact (proj1 (proj2 (proj2 (proj2 upstream_error_passthrough))
                  unit (Part000.blank unit) e eq_refl)).
Defined.

(** X10. In index.tsx a generation never changes the client or the
    session store, whatever the outcome.  In part_000 it removes both
    exactly when the request is rejected with a message that contains
    the invalid-key marker; for every other outcome, an empty response
    included, both are left as they were. *)
Theorem generate_gate_effect :
  (forall (G : Type) (st : IndexTsx.State G) (r : settled),
     IndexTsx.ai (pageOf (IndexTsx.generateButton_click st)) = IndexTsx.ai st
     /\ IndexTsx.sessionStorage (pageOf (IndexTsx.generateButton_click st))
        = IndexTsx.sessionStorage st
     /\ IndexTsx.ai (IndexTsx.generateButton_resume r st) = IndexTsx.ai st
     /\ IndexTsx.sessionStorage (IndexTsx.generateButton_resume r st)
        = IndexTsx.sessionStorage st)
  /\ (forall (G : Type) (st : Part000.State G) (r : settled),
        let st' := Part000.generateAndRenderCards_resume r st in
        Part000.ai (pageOf (Part000.generateAndRenderCards st)) = Part000.ai st
        /\ Part000.sessionStorage (pageOf (Part000.generateAndRenderCards st))
           = Part000.sessionStorage st
        /\ if match r with
              | Rejected e => includes INVALID_KEY_MARKER (messageOr e)
              | Fulfilled _ => false
              end
           then Part000.Absent st'
                /\ Part000.sessionStorage st'
                   = delete API_KEY_SESSION_STORAGE_KEY
                       (Part000.sessionStorage st)
           else Part000.ai st' = Part000.ai st
                /\ Part000.sessionStorage st' = Part000.sessionStorage st).
Proof.
  split.
  - intros G st r. split; [|split; [|split]].
    + unfold IndexTsx.generateButton_click.
      destruct (IndexTsx.ai st) eqn:E;
        [destruct (truthy (trim (IndexTsx.topicInput st)))|];
        cbn; assumption.
    + unfold IndexTsx.generateButton_click.
      destruct (IndexTsx.ai st);
        [destruct (truthy (trim (IndexTsx.topicInput st)))|];
        reflexivity.
    + destruct r as [text|e]; [|reflexivity].
      rewrite IndexTsx_resume_fulfilled.
      destruct (truthy (default [] text)); [|reflexivity].
      destruct (map cardOf _); reflexivity.
    + destruct r as [text|e]; [|reflexivity].
      rewrite IndexTsx_resume_fulfilled.
      destruct (truthy (default [] text)); [|reflexivity].
      destruct (map cardOf _); reflexivity.
  - intros G st r st'. subst st'. split; [|split].
    + unfold Part000.generateAndRenderCards.
      destruct (truthy (trim (Part000.topicInput st))); [|reflexivity].
      destruct (Part000.ai st) eqn:E; cbn; assumption.
    + unfold Part000.generateAndRenderCards.
      destruct (truthy (trim (Part000.topicInput st))); [|reflexivity].
      destruct (Part000.ai st); reflexivity.
    + destruct r as [text|e].
      * rewrite Part000_resume_fulfilled.
        destruct (truthy (default [] text)); [|split; reflexivity].
        destruct (map cardOf _); split; reflexivity.
      * unfold Part000.generateAndRenderCards_resume, Part000.generate_try,
          Part000.generate_catch, Part000.Absent.
        destruct (includes INVALID_KEY_MARKER (messageOr e)); cbn.
        -- repeat split. apply lookup_delete_eq.
        -- split; reflexivity.
Qed.

(** ** More about the key *)

(** X11. Asking to change the key always leaves the gate without a
    credential, whatever the state before, and touches no other entry
    of the session store.  index.tsx also empties the topic and the
    message, shows the key form instead of the application and puts the
    six example cards back; part_000 opens the key dialog and leaves
    the rest of the page alone. *)
Theorem change_key_clears_gate :
  (forall (G : Type) (st : IndexTsx.State G),
     let st' := IndexTsx.changeApiKey_click st in
     IndexTsx.Absent st'
     /\ (forall k, k <> API_KEY_SESSION_STORAGE_KEY ->
                   IndexTsx.sessionStorage st' !! k
                   = IndexTsx.sessionStorage st !! k)
     /\ IndexTsx.topicInput st' = []
     /\ IndexTsx.errorMessage st' = []
     /\ IndexTsx.apiKeySection_hidden st' = false
     /\ IndexTsx.appContent_hidden st' = true
     /\ IndexTsx.exampleMessage_hidden st' = false
     /\ IndexTsx.flashcardsContainer st' = DEFAULT_FLASHCARDS)
  /\ (forall (G : Type) (st : Part000.State G),
        let st' := Part000.changeApiKeyLink_click st in
        Part000.Absent st'
        /\ (forall k, k <> API_KEY_SESSION_STORAGE_KEY ->
                      Part000.sessionStorage st' !! k
                      = Part000.sessionStorage st !! k)
        /\ Part000.apiKeyModal_open st' = true
        /\ Part000.topicInput st' = Part000.topicInput st
        /\ Part000.errorMessage st' = Part000.errorMessage st
        /\ Part000.flashcardsContainer st' = Part000.flashcardsContainer st).
Proof.
  split; intros G st st'; subst st'.
  - split; [split; [reflexivity|apply lookup_delete_eq]|].
    split; [|repeat split].
    intros k Hk. apply lookup_delete_ne. congruence.
  - split; [split; [reflexivity|apply lookup_delete_eq]|].
    split; [|repeat split].
    intros k Hk. apply lookup_delete_ne. congruence.
Qed.

Lemma Part000_generateAndRenderCards_gate (G : Type) (st : Part000.State G) :
  Part000.ai (pageOf (Part000.generateAndRenderCards st)) = Part000.ai st
  /\ Part000.sessionStorage (pageOf (Part000.generateAndRenderCards st))
     = Part000.sessionStorage st
  /\ Part000.apiKeyInput (pageOf (Part000.generateAndRenderCards st))
     = Part000.apiKeyInput st.
Proof.
  unfold Part000.generateAndRenderCards.
  destruct (truthy (trim (Part000.topicInput st))); [|repeat split].
  destruct (Part000.ai st) eqn:E; cbn; repeat split; assumption.
Qed.

(** X12. Saving a key that is not blank and that the constructor
    accepts makes the gate active: the client is the one built from the
    trimmed key, the trimmed key is what the session store holds, and
    the input is emptied.  index.tsx then shows the application instead
    of the key form, with no message and no cards; part_000 closes the
    dialog and at once runs a generation on the topic that is there, so
    a request is sent exactly when that topic is not blank, even if an
    earlier request is still pending. *)
Theorem save_key_activates :
  (forall (G : Type) (new : jsstring -> completion G)
          (st : IndexTsx.State G) (client : G),
     trim (IndexTsx.apiKeyInput st) <> [] ->
     new (trim (IndexTsx.apiKeyInput st)) = Normal client ->
     let st' := IndexTsx.saveApiKeyButton_click new st in
     IndexTsx.ai st' = Some client
     /\ IndexTsx.sessionStorage st'
        = <[API_KEY_SESSION_STORAGE_KEY := trim (IndexTsx.apiKeyInput st)]>
            (IndexTsx.sessionStorage st)
     /\ IndexTsx.apiKeyInput st' = []
     /\ IndexTsx.apiKeySection_hidden st' = true
     /\ IndexTsx.appContent_hidden st' = false
     /\ IndexTsx.errorMessage st' = []
     /\ IndexTsx.flashcardsContainer st' = [])
  /\ (forall (G : Type) (new : jsstring -> completion G)
             (st : Part000.State G) (client : G),
        trim (Part000.apiKeyInput st) <> [] ->
        new (trim (Part000.apiKeyInput st)) = Normal client ->
        let s := Part000.saveApiKeyButton_click new st in
        Part000.ai (pageOf s) = Some client
        /\ Part000.sessionStorage (pageOf s)
           = <[API_KEY_SESSION_STORAGE_KEY := trim (Part000.apiKeyInput st)]>
               (Part000.sessionStorage st)
        /\ Part000.apiKeyInput (pageOf s) = []
        /\ Part000.apiKeyModal_open (pageOf s) = false
        /\ (trim (Part000.topicInput st) <> [] ->
            exists st1,
              s = Awaiting st1 client
                    {| model := str "gemini-2.5-flash";
                       contents :=
                         Part000.prompt (trim (Part000.topicInput st)) |})
        /\ (trim (Part000.topicInput st) = [] ->
            exists st1,
              s = Finished st1
              /\ Part000.errorMessage st1 = Part000.MSG_EMPTY_TOPIC)).
Proof.
  split.
  - intros G new st client Hk Hnew st'. subst st'.
    unfold IndexTsx.saveApiKeyButton_click, IndexTsx.initializeApp.
    apply truthy_nonempty in Hk. rewrite Hk. cbn. rewrite Hnew.
    repeat split.
  - intros G new st client Hk Hnew s. subst s.
    unfold Part000.saveApiKeyButton_click, Part000.initializeAi.
    apply truthy_nonempty in Hk. rewrite Hk, Hnew.
    set (st2 := Part000.set_apiKeyModal_open false _).
    destruct (Part000_generateAndRenderCards_gate G st2) as (Ha & Hs & Hi).
    split; [rewrite Ha; reflexivity|].
    split; [rewrite Hs; reflexivity|].
    split; [rewrite Hi; reflexivity|].
    unfold Part000.generateAndRenderCards.
    change (Part000.topicInput st2) with (Part000.topicInput st).
    change (Part000.ai st2) with (Some client).
    destruct (truthy (trim (Part000.topicInput st))) eqn:Et; cbn.
    + split; [reflexivity|]. split; [eauto|].
      intros E. rewrite E in Et. discriminate Et.
    + split; [reflexivity|]. split; [|eauto].
      intros E. apply truthy_nonempty in E. congruence.
Qed.

Lemma save_key_activates_witness :
  let new := fun k : jsstring => Normal k in
  let st := IndexTsx.set_apiKeyInput (str "  my-key ") (IndexTsx.blank jsstring) in
  trim (IndexTsx.apiKeyInput st) <> []
  /\ new (trim (IndexTsx.apiKeyInput st)) = Normal (str "my-key")
  /\ IndexTsx.ai (IndexTsx.saveApiKeyButton_click new st) = Some (str "my-key").
Proof.
  intros new st.
  assert (Hk : trim (IndexTsx.apiKeyInput st) <> []) by discriminate.
  split; [exact Hk|]. split; [reflexivity|].
  exact (proj1 (proj1 save_key_activates jsstring new st (str "my-key")
                  Hk eq_refl)).
Defined.

(** X13. A key saved in one page load is found by the next one: on any
    page whose session store is the one left by a successful save, the
    [DOMContentLoaded] listener builds the client from that same
    trimmed key, in both variants. *)
Theorem save_then_reload :
  (forall (G : Type) (new : jsstring -> completion G)
          (st st2 : IndexTsx.State G) (client : G),
     trim (IndexTsx.apiKeyInput st) <> [] ->
     new (trim (IndexTsx.apiKeyInput st)) = Normal client ->
     IndexTsx.sessionStorage st2
     = IndexTsx.sessionStorage (IndexTsx.saveApiKeyButton_click new st) ->
     IndexTsx.ai (IndexTsx.DOMContentLoaded new st2) = Some client)
  /\ (forall (G : Type) (new : jsstring -> completion G)
             (st st2 : Part000.State G) (client : G),
        trim (Part000.apiKeyInput st) <> [] ->
        new (trim (Part000.apiKeyInput st)) = Normal client ->
        Part000.sessionStorage st2
        = Part000.sessionStorage
            (pageOf (Part000.saveApiKeyButton_click new st)) ->
        Part000.ai (Part000.DOMContentLoaded new st2) = Some client).
Proof.
  split.
  - intros G new st st2 client Hk Hnew Hs.
    assert (Hl : IndexTsx.sessionStorage st2 !! API_KEY_SESSION_STORAGE_KEY
                 = Some (trim (IndexTsx.apiKeyInput st))).
    { rewrite Hs. unfold IndexTsx.saveApiKeyButton_click, IndexTsx.initializeApp.
      pose proof Hk as Hk'. apply truthy_nonempty in Hk'.
      rewrite Hk'. cbn. rewrite Hnew. cbn. apply lookup_insert_eq. }
    unfold IndexTsx.DOMContentLoaded, IndexTsx.initializeApp. rewrite Hl.
    apply truthy_nonempty in Hk. rewrite Hk, Hnew. reflexivity.
  - intros G new st st2 client Hk Hnew Hs.
    assert (Hl : Part000.sessionStorage st2 !! API_KEY_SESSION_STORAGE_KEY
                 = Some (trim (Part000.apiKeyInput st))).
    { rewrite Hs. unfold Part000.saveApiKeyButton_click, Part000.initializeAi.
      pose proof Hk as Hk'. apply truthy_nonempty in Hk'.
      rewrite Hk', Hnew.
      rewrite (proj1 (proj2 (Part000_generateAndRenderCards_gate G _))).
      cbn. apply lookup_insert_eq. }
    unfold Part000.DOMContentLoaded, Part000.initializeAi. rewrite Hl.
    apply truthy_nonempty in Hk. rewrite Hk, Hnew. reflexivity.
Qed.

Lemma save_then_reload_witness :
  let new := fun k : jsstring => Normal k in
  let st := Part000.set_apiKeyInput (str "  my-key ") (Part000.blank jsstring) in
  let st2 :=
    Part000.set_sessionStorage
      (Part000.sessionStorage (pageOf (Part000.saveApiKeyButton_click new st)))
      (Part000.blank jsstring) in
  trim (Part000.apiKeyInput st) <> []
  /\ new (trim (Part000.apiKeyInput st)) = Normal (str "my-key")
  /\ Part000.ai (Part000.DOMContentLoaded new st2) = Some (str "my-key").
Proof.
  intros new st st2.
  assert (Hk : trim (Part000.apiKeyInput st) <> []) by discriminate.
  split; [exact Hk|]. split; [reflexivity|].
  exact (proj2 save_then_reload jsstring new st st2 (str "my-key")
           Hk eq_refl eq_refl).
Defined.

(** ** Loading the page *)

(** X14. index.tsx on load.  With no key in the session store, or an
    empty one, the key form is shown instead of the application, with
    the example message and the six example cards, and the constructor
    is not called.  With a stored key the constructor accepts, the
    client is built from it and the application is shown with no cards.
    With a stored key the constructor refuses, the key is removed from
    the session store, the failure is reported, and no client is set. *)
Theorem IndexTsx_on_load :
  (forall (G : Type) (new : jsstring -> completion G) (st : IndexTsx.State G),
     IndexTsx.sessionStorage st !! API_KEY_SESSION_STORAGE_KEY = None
     \/ IndexTsx.sessionStorage st !! API_KEY_SESSION_STORAGE_KEY = Some [] ->
     IndexTsx.DOMContentLoaded new st
     = IndexTsx.renderFlashcards DEFAULT_FLASHCARDS
         (IndexTsx.set_exampleMessage_hidden false
            (IndexTsx.set_appContent_hidden true
               (IndexTsx.set_apiKeySection_hidden false st))))
  /\ (forall (G : Type) (new : jsstring -> completion G)
             (st : IndexTsx.State G) (k : jsstring) (client : G),
        IndexTsx.sessionStorage st !! API_KEY_SESSION_STORAGE_KEY = Some k ->
        k <> [] ->
        new k = Normal client ->
        let st' := IndexTsx.DOMContentLoaded new st in
        IndexTsx.ai st' = Some client
        /\ IndexTsx.sessionStorage st' = IndexTsx.sessionStorage st
        /\ IndexTsx.apiKeySection_hidden st' = true
        /\ IndexTsx.appContent_hidden st' = false
        /\ IndexTsx.flashcardsContainer st' = []
        /\ IndexTsx.errorMessage st' = [])
  /\ (forall (G : Type) (new : jsstring -> completion G)
             (st : IndexTsx.State G) (k : jsstring) (e : exn),
        IndexTsx.sessionStorage st !! API_KEY_SESSION_STORAGE_KEY = Some k ->
        k <> [] ->
        new k = Throw e ->
        let st' := IndexTsx.DOMContentLoaded new st in
        IndexTsx.ai st' = IndexTsx.ai st
        /\ IndexTsx.sessionStorage st'
           = delete API_KEY_SESSION_STORAGE_KEY (IndexTsx.sessionStorage st)
        /\ IndexTsx.sessionStorage st' !! API_KEY_SESSION_STORAGE_KEY = None
        /\ IndexTsx.errorMessage st' = IndexTsx.MSG_INIT_ERROR
        /\ IndexTsx.flashcardsContainer st' = IndexTsx.flashcardsContainer st).
Proof.
  split; [|split].
  - intros G new st [H|H]; unfold IndexTsx.DOMContentLoaded; rewrite H;
      reflexivity.
  - intros G new st k client Hs Hk Hnew st'. subst st'.
    unfold IndexTsx.DOMContentLoaded, IndexTsx.initializeApp.
    apply truthy_nonempty in Hk. rewrite Hs, Hk, Hnew. repeat split.
  - intros G new st k e Hs Hk Hnew st'. subst st'.
    unfold IndexTsx.DOMContentLoaded, IndexTsx.initializeApp.
    apply truthy_nonempty in Hk. rewrite Hs, Hk, Hnew. cbn.
    repeat split. apply lookup_delete_eq.
Qed.

Lemma IndexTsx_on_load_witness :
  let new := fun _ : jsstring => @Throw unit (Exn None) in
  let st :=
    IndexTsx.set_sessionStorage
      {[ API_KEY_SESSION_STORAGE_KEY := str "stale-key" ]}
      (IndexTsx.blank unit) in
  IndexTsx.sessionStorage st !! API_KEY_SESSION_STORAGE_KEY
  = Some (str "stale-key")
  /\ str "stale-key" <> []
  /\ IndexTsx.sessionStorage (IndexTsx.DOMContentLoaded new st)
       !! API_KEY_SESSION_STORAGE_KEY = None.
Proof.
  intros new st.
  assert (Hs : IndexTsx.sessionStorage st !! API_KEY_SESSION_STORAGE_KEY
               = Some (str "stale-key")) by apply lookup_singleton_eq.
  assert (Hk : str "stale-key" <> []) by discriminate.
  split; [exact Hs|]. split; [exact Hk|].
  exact (proj1 (proj2 (proj2 (proj2 (proj2 IndexTsx_on_load) unit new st
                                (str "stale-key") (Exn None) Hs Hk eq_refl)))).
Defined.

(** X15. part_000 on load.  The six example cards and the example
    message are always shown, and the session store is never changed.
    A stored key that is not empty is given to the constructor: when it
    is accepted the client is set, when it is refused the failure is
    reported and the key stays in the store.  Without such a key the
    client variable is left as it was. *)
Theorem Part000_on_load :
  forall (G : Type) (new : jsstring -> completion G) (st : Part000.State G),
    let st' := Part000.DOMContentLoaded new st in
    Part000.flashcardsContainer st' = DEFAULT_FLASHCARDS
    /\ Part000.exampleMessage_hidden st' = false
    /\ Part000.sessionStorage st' = Part000.sessionStorage st
    /\ match Part000.sessionStorage st !! API_KEY_SESSION_STORAGE_KEY with
       | Some (c :: k) =>
           match new (c :: k) with
           | Normal client =>
               Part000.ai st' = Some client
               /\ Part000.errorMessage st' = Part000.errorMessage st
           | Throw _ =>
               Part000.ai st' = Part000.ai st
               /\ Part000.errorMessage st' = Part000.MSG_INIT_ERROR
           end
       | _ =>
           Part000.ai st' = Part000.ai st
           /\ Part000.errorMessage st' = Part000.errorMessage st
       end.
Proof.
  intros G new st st'. subst st'.
  unfold Part000.DOMContentLoaded, Part000.initializeAi.
  destruct (Part000.sessionStorage st !! API_KEY_SESSION_STORAGE_KEY)
    as [[|c k]|]; cbn; [repeat split| |repeat split].
  destruct (new (c :: k)); cbn; repeat split.
Qed.

(** ** What every run of the page keeps *)

Lemma IndexTsx_click_gate (G : Type) (st : IndexTsx.State G) :
  IndexTsx.sessionStorage (pageOf (IndexTsx.generateButton_click st))
  = IndexTsx.sessionStorage st.
Proof.
  unfold IndexTsx.generateButton_click.
  destruct (IndexTsx.ai st);
    [destruct (truthy (trim (IndexTsx.topicInput st)))|]; reflexivity.
Qed.

Lemma IndexTsx_resume_gate (G : Type) (st : IndexTsx.State G) (r : settled) :
  IndexTsx.sessionStorage (IndexTsx.generateButton_resume r st)
  = IndexTsx.sessionStorage st.
Proof.
  destruct r as [text|e]; [|reflexivity].
  rewrite IndexTsx_resume_fulfilled.
  destruct (truthy (default [] text)); [|reflexivity].
  destruct (map cardOf _); reflexivity.
Qed.

Lemma Part000_resume_gate (G : Type) (st : Part000.State G) (r : settled) :
  let st' := Part000.generateAndRenderCards_resume r st in
  (Part000.ai st' = Part000.ai st
   /\ Part000.sessionStorage st' = Part000.sessionStorage st)
  \/ (Part000.ai st' = None
      /\ Part000.sessionStorage st'
         = delete API_KEY_SESSION_STORAGE_KEY (Part000.sessionStorage st)).
Proof.
  intros st'. subst st'. destruct r as [text|e].
  - left. rewrite Part000_resume_fulfilled.
    destruct (truthy (default [] text)); [|split; reflexivity].
    destruct (map cardOf _); split; reflexivity.
  - unfold Part000.generateAndRenderCards_resume, Part000.generate_try,
      Part000.generate_catch.
    destruct (includes INVALID_KEY_MARKER (messageOr e));
      [right|left]; split; reflexivity.
Qed.

Lemma Part000_load_gate (G : Type) (new : jsstring -> completion G)
    (st : Part000.State G) :
  let st' := Part000.DOMContentLoaded new st in
  Part000.sessionStorage st' = Part000.sessionStorage st
  /\ (Part000.ai st' = Part000.ai st
      \/ is_Some (Part000.sessionStorage st !! API_KEY_SESSION_STORAGE_KEY)).
Proof.
  intros st'. subst st'.
  unfold Part000.DOMContentLoaded, Part000.initializeAi.
  destruct (Part000.sessionStorage st !! API_KEY_SESSION_STORAGE_KEY)
    as [k|]; [|split; [reflexivity|left; reflexivity]].
  destruct (truthy k); [|split; [reflexivity|left; reflexivity]].
  destruct (new k); split; try reflexivity; right; eauto.
Qed.

Lemma IndexTsx_dispatch_store (G : Type) (new : jsstring -> completion G)
    (ev : IndexTsxEvents.Event) (st : IndexTsx.State G) :
  storedKeyAccepted new (IndexTsx.sessionStorage st) ->
  storedKeyAccepted new
    (IndexTsx.sessionStorage (IndexTsxEvents.dispatch new ev st)).
Proof.
  intros Hinv. destruct ev as [| | | | | |r]; cbn [IndexTsxEvents.dispatch].
  - unfold IndexTsx.DOMContentLoaded, IndexTsx.initializeApp.
    destruct (IndexTsx.sessionStorage st !! API_KEY_SESSION_STORAGE_KEY)
      as [k|] eqn:Ek; [|exact Hinv].
    destruct (truthy k); [|exact Hinv].
    destruct (new k); [exact Hinv|].
    intros k' Hk'. cbn in Hk'. rewrite lookup_delete_eq in Hk'.
    discriminate Hk'.
  - exact Hinv.
  - exact Hinv.
  - unfold IndexTsx.saveApiKeyButton_click, IndexTsx.initializeApp.
    destruct (truthy (trim (IndexTsx.apiKeyInput st))); [|exact Hinv].
    cbn. destruct (new (trim (IndexTsx.apiKeyInput st))) as [client|e] eqn:En;
      intros k' Hk'; cbn in Hk'.
    + rewrite lookup_insert_eq in Hk'. injection Hk' as <-. eauto.
    + rewrite lookup_delete_eq in Hk'. discriminate Hk'.
  - intros k' Hk'. cbn in Hk'. rewrite lookup_delete_eq in Hk'.
    discriminate Hk'.
  - rewrite IndexTsx_click_gate. exact Hinv.
  - rewrite IndexTsx_resume_gate. exact Hinv.
Qed.

Lemma Part000_saveApiKeyButton_gate (G : Type)
    (new : jsstring -> completion G) (st : Part000.State G) :
  let st' := pageOf (Part000.saveApiKeyButton_click new st) in
  (Part000.ai st' = Part000.ai st
   /\ Part000.sessionStorage st' = Part000.sessionStorage st)
  \/ (exists client,
        new (trim (Part000.apiKeyInput st)) = Normal client
        /\ Part000.ai st' = Some client
        /\ Part000.sessionStorage st'
           = <[API_KEY_SESSION_STORAGE_KEY := trim (Part000.apiKeyInput st)]>
               (Part000.sessionStorage st)).
Proof.
  intros st'. subst st'.
  unfold Part000.saveApiKeyButton_click, Part000.initializeAi.
  destruct (truthy (trim (Part000.apiKeyInput st))); [|left; split; reflexivity].
  destruct (new (trim (Part000.apiKeyInput st))) as [client|e] eqn:En.
  - right. exists client. split; [reflexivity|].
    set (st2 := Part000.set_apiKeyModal_open false _).
    destruct (Part000_generateAndRenderCards_gate G st2) as (Ha & Hs & _).
    rewrite Ha, Hs. split; reflexivity.
  - left. split; reflexivity.
Qed.

Lemma Part000_dispatch_invariants (G : Type) (new : jsstring -> completion G)
    (ev : Part000Events.Event) (st : Part000.State G) :
  let st' := Part000Events.dispatch new ev st in
  (storedKeyAccepted new (Part000.sessionStorage st) ->
   storedKeyAccepted new (Part000.sessionStorage st'))
  /\ ((Part000.ai st <> None ->
       Part000.sessionStorage st !! API_KEY_SESSION_STORAGE_KEY <> None) ->
      Part000.ai st' <> None ->
      Part000.sessionStorage st' !! API_KEY_SESSION_STORAGE_KEY <> None).
Proof.
  intros st'. subst st'.
  destruct ev as [| | | | | | |r]; cbn [Part000Events.dispatch].
  - destruct (Part000_load_gate G new st) as [Hs Hai]. cbv zeta in Hs, Hai.
    rewrite Hs. split; [auto|]. intros Hj Hne.
    destruct Hai as [Hai|[k Hk]]; [rewrite Hai in Hne; auto|].
    rewrite Hk. discriminate.
  - split; auto.
  - split; auto.
  - destruct (Part000_saveApiKeyButton_gate G new st)
      as [[-> ->]|(client & Hnew & -> & ->)]; [split; auto|].
    split.
    + intros _ k Hk. rewrite lookup_insert_eq in Hk. injection Hk as <-. eauto.
    + intros _ _. rewrite lookup_insert_eq. discriminate.
  - split; auto.
  - split.
    + intros _ k Hk. cbn in Hk. rewrite lookup_delete_eq in Hk. discriminate Hk.
    + intros _ H. cbn in H. congruence.
  - unfold Part000.generateButton_click.
    destruct (Part000.ai st) eqn:Ea; [|cbn; rewrite Ea; split; auto].
    destruct (Part000_generateAndRenderCards_gate G st) as (-> & -> & _).
    rewrite Ea. split; auto.
  - destruct (Part000_resume_gate G st r) as [[Ha Hs]|[Ha Hs]];
      cbv zeta in Ha, Hs; rewrite Ha, Hs.
    + split; auto.
    + split; [|congruence].
      intros _ k Hk. rewrite lookup_delete_eq in Hk. discriminate Hk.
Qed.

(** X16. Whatever the user does and however requests settle, in any
    order, the session store of either page only ever holds a key that
    the client constructor accepted, provided that was so to begin
    with; and in part_000 a client never exists without its key being
    in the session store.  In particular both hold for every run that
    starts from a page with no client and an empty store. *)
Theorem run_invariants :
  (forall (G : Type) (new : jsstring -> completion G)
          (evs : list IndexTsxEvents.Event) (st : IndexTsx.State G),
     storedKeyAccepted new (IndexTsx.sessionStorage st) ->
     storedKeyAccepted new
       (IndexTsx.sessionStorage (IndexTsxEvents.run new evs st)))
  /\ (forall (G : Type) (new : jsstring -> completion G)
             (evs : list Part000Events.Event) (st : Part000.State G),
        storedKeyAccepted new (Part000.sessionStorage st) ->
        (Part000.ai st <> None ->
         Part000.sessionStorage st !! API_KEY_SESSION_STORAGE_KEY <> None) ->
        let st' := Part000Events.run new evs st in
        storedKeyAccepted new (Part000.sessionStorage st')
        /\ (Part000.ai st' <> None ->
            Part000.sessionStorage st' !! API_KEY_SESSION_STORAGE_KEY <> None))
  /\ (forall (G : Type) (new : jsstring -> completion G)
             (evs : list IndexTsxEvents.Event),
        storedKeyAccepted new
          (IndexTsx.sessionStorage
             (IndexTsxEvents.run new evs (IndexTsx.blank G))))
  /\ (forall (G : Type) (new : jsstring -> completion G)
             (evs : list Part000Events.Event),
        let st' := Part000Events.run new evs (Part000.blank G) in
        storedKeyAccepted new (Part000.sessionStorage st')
        /\ (Part000.ai st' <> None ->
            Part000.sessionStorage st' !! API_KEY_SESSION_STORAGE_KEY <> None)).
Proof.
  assert (H1 : forall (G : Type) (new : jsstring -> completion G)
                 (evs : list IndexTsxEvents.Event) (st : IndexTsx.State G),
             storedKeyAccepted new (IndexTsx.sessionStorage st) ->
             storedKeyAccepted new
               (IndexTsx.sessionStorage (IndexTsxEvents.run new evs st))).
  { intros G new evs. unfold IndexTsxEvents.run.
    induction evs as [|ev evs IH]; intros st Hinv; [exact Hinv|].
    cbn [fold_left]. apply IH, IndexTsx_dispatch_store, Hinv. }
  assert (H2 : forall (G : Type) (new : jsstring -> completion G)
                 (evs : list Part000Events.Event) (st : Part000.State G),
             storedKeyAccepted new (Part000.sessionStorage st) ->
             (Part000.ai st <> None ->
              Part000.sessionStorage st !! API_KEY_SESSION_STORAGE_KEY <> None) ->
             let st' := Part000Events.run new evs st in
             storedKeyAccepted new (Part000.sessionStorage st')
             /\ (Part000.ai st' <> None ->
                 Part000.sessionStorage st' !! API_KEY_SESSION_STORAGE_KEY
                 <> None)).
  { intros G new evs. unfold Part000Events.run.
    induction evs as [|ev evs IH]; intros st Ha Hj; [split; assumption|].
    cbn [fold_left].
    destruct (Part000_dispatch_invariants G new ev st) as [Ha' Hj'].
    apply IH; [apply Ha', Ha|apply Hj', Hj]. }
  split; [exact H1|]. split; [exact H2|]. split.
  - intros G new evs. apply H1. intros k Hk. cbn in Hk.
    rewrite lookup_empty in Hk. discriminate Hk.
  - intros G new evs. apply H2.
    + intros k Hk. cbn in Hk. rewrite lookup_empty in Hk. discriminate Hk.
    + intros H. cbn in H. congruence.
Qed.

Lemma run_invariants_witness :
  let new := fun k : jsstring =>
               if truthy k then Normal k else Throw (Exn None) in
  let evs := [Part000Events.KeyTyped (str " my-key ");
              Part000Events.SaveClicked;
              Part000Events.TopicTyped (str "Colors");
              Part000Events.GenerateClicked;
              Part000Events.RequestSettled (Fulfilled (Some (str "Red: warm")))] in
  let st := Part000.blank jsstring in
  storedKeyAccepted new (Part000.sessionStorage st)
  /\ (Part000.ai st <> None ->
      Part000.sessionStorage st !! API_KEY_SESSION_STORAGE_KEY <> None)
  /\ storedKeyAccepted new
       (Part000.sessionStorage (Part000Events.run new evs st))
  /\ Part000.flashcardsContainer (Part000Events.run new evs st)
     = [card "Red" "warm"].
Proof.
  intros new evs st.
  assert (Ha : storedKeyAccepted new (Part000.sessionStorage st)).
  { intros k Hk. cbn in Hk. rewrite lookup_empty in Hk. discriminate Hk. }
  assert (Hj : Part000.ai st <> None ->
               Part000.sessionStorage st !! API_KEY_SESSION_STORAGE_KEY
               <> None).
  { intros H. cbn in H. congruence. }
  split; [exact Ha|]. split; [exact Hj|]. split; [|reflexivity].
  exact (proj1 (proj1 (proj2 run_invariants) jsstring new evs st Ha Hj)).
Defined.

(** ** The cards in the document *)

Lemma forEachIndexed_length (A B : Type) (f : A -> nat -> B) (n : nat)
    (xs : list A) :
  length (forEachIndexed f n xs) = length xs.
Proof.
  revert n. induction xs as [|x xs IH]; intros n; [reflexivity|].
  simpl. rewrite IH. reflexivity.
Qed.

Lemma forEachIndexed_nth (A B : Type) (f : A -> nat -> B) (n i : nat)
    (xs : list A) :
  nth_error (forEachIndexed f n xs) i
  = option_map (fun x => f x (n + i)%nat) (nth_error xs i).
Proof.
  revert n i. induction xs as [|x xs IH]; intros n [|i]; simpl;
    try reflexivity.
  - rewrite Nat.add_0_r. reflexivity.
  - rewrite IH. rewrite Nat.add_succ_r. reflexivity.
Qed.

Lemma str_inj (a b : string) : str a = str b -> a = b.
Proof.
  unfold str. intros H.
  rewrite <- (string_of_list_ascii_of_string a),
    <- (string_of_list_ascii_of_string b). f_equal.
  revert H. generalize (list_ascii_of_string a) (list_ascii_of_string b).
  intros l. induction l as [|x l IH]; intros [|y m] H; simpl in H;
    try discriminate; [reflexivity|].
  injection H as Hx Hl. f_equal; [|exact (IH m Hl)].
  rewrite <- (ascii_N_embedding x), <- (ascii_N_embedding y), Hx.
  reflexivity.
Qed.

Lemma toString_inj (i j : nat) : toString i = toString j -> i = j.
Proof.
  unfold toString. intros H. apply str_inj in H.
  apply (f_equal NilEmpty.uint_of_string) in H.
  rewrite !NilEmpty.usu in H. injection H as H.
  apply (f_equal Nat.of_uint) in H.
  rewrite !DecimalNat.Unsigned.of_to in H. exact H.
Qed.

(** X17. [renderFlashcards] puts one element per card in the container,
    in the order of the list: the element at position [i] shows the
    term and the definition of the card at position [i], is face down,
    and carries the decimal of [i] as its index, so no two elements of
    one rendering share an index.  In part_000 it also announces
    itself as an unpressed button labelled with the term. *)
Theorem rendered_elements :
  (forall cards : list Flashcard,
     length (IndexTsxCards.elements cards) = length cards
     /\ length (Part000Cards.elements cards) = length cards)
  /\ (forall (cards : list Flashcard) (i : nat) (c : Flashcard),
        nth_error cards i = Some c ->
        nth_error (IndexTsxCards.elements cards) i
        = Some {| IndexTsxCards.dataset_index := toString i;
                  IndexTsxCards.termText := term c;
                  IndexTsxCards.definitionText := definition c;
                  IndexTsxCards.flipped := false |}
        /\ nth_error (Part000Cards.elements cards) i
           = Some {| Part000Cards.dataset_index := toString i;
                     Part000Cards.role := str "button";
                     Part000Cards.aria_pressed := str "false";
                     Part000Cards.aria_label :=
                       str "Flashcard for " ++ term c
                       ++ str ". Click to flip.";
                     Part000Cards.termText := term c;
                     Part000Cards.definitionText := definition c;
                     Part000Cards.flipped := false |})
  /\ (forall (cards : list Flashcard) (i j : nat)
             (a b : Part000Cards.Element),
        nth_error (Part000Cards.elements cards) i = Some a ->
        nth_error (Part000Cards.elements cards) j = Some b ->
        Part000Cards.dataset_index a = Part000Cards.dataset_index b ->
        i = j)
  /\ (forall (cards : list Flashcard) (i j : nat)
             (a b : IndexTsxCards.Element),
        nth_error (IndexTsxCards.elements cards) i = Some a ->
        nth_error (IndexTsxCards.elements cards) j = Some b ->
        IndexTsxCards.dataset_index a = IndexTsxCards.dataset_index b ->
        i = j).
Proof.
  split; [|split; [|split]].
  - intros cards. split; apply forEachIndexed_length.
  - intros cards i c H.
    unfold IndexTsxCards.elements, Part000Cards.elements.
    rewrite !forEachIndexed_nth, H. split; reflexivity.
  - intros cards i j a b. unfold Part000Cards.elements.
    rewrite !forEachIndexed_nth.
    destruct (nth_error cards i); [|discriminate].
    destruct (nth_error cards j); [|discriminate].
    simpl. intros [= <-] [= <-]. simpl. apply toString_inj.
  - intros cards i j a b. unfold IndexTsxCards.elements.
    rewrite !forEachIndexed_nth.
    destruct (nth_error cards i); [|discriminate].
    destruct (nth_error cards j); [|discriminate].
    simpl. intros [= <-] [= <-]. simpl. apply toString_inj.
Qed.

Lemma rendered_elements_witness :
  nth_error DEFAULT_FLASHCARDS 2
  = Some (card "Earth" "Our home planet, the only place known to harbor life.")
  /\ option_map IndexTsxCards.dataset_index
       (nth_error (IndexTsxCards.elements DEFAULT_FLASHCARDS) 2)
     = Some (str "2").
Proof.
  split; [reflexivity|].
  rewrite (proj1 (proj1 (proj2 rendered_elements) DEFAULT_FLASHCARDS 2%nat _
                    eq_refl)).
  reflexivity.
Defined.

(** X18. Clicking a rendered card any number of times leaves it face up
    exactly when the number of clicks is odd and changes nothing else;
    in part_000 the [aria-pressed] attribute always says whether the
    card is face up.  So a second click undoes the first. *)
Theorem card_clicks :
  (forall (c : Flashcard) (i k : nat),
     Nat.iter k IndexTsxCards.click (IndexTsxCards.createCard c i)
     = {| IndexTsxCards.dataset_index := toString i;
          IndexTsxCards.termText := term c;
          IndexTsxCards.definitionText := definition c;
          IndexTsxCards.flipped := Nat.odd k |})
  /\ (forall (c : Flashcard) (i k : nat),
        Nat.iter k Part000Cards.click (Part000Cards.createCard c i)
        = {| Part000Cards.dataset_index := toString i;
             Part000Cards.role := str "button";
             Part000Cards.aria_pressed := boolToString (Nat.odd k);
             Part000Cards.aria_label :=
               str "Flashcard for " ++ term c ++ str ". Click to flip.";
             Part000Cards.termText := term c;
             Part000Cards.definitionText := definition c;
             Part000Cards.flipped := Nat.odd k |})
  /\ (forall el : IndexTsxCards.Element,
        IndexTsxCards.click (IndexTsxCards.click el) = el)
  /\ (forall el : Part000Cards.Element,
        Part000Cards.aria_pressed el
        = boolToString (Part000Cards.flipped el) ->
        Part000Cards.click (Part000Cards.click el) = el).
Proof.
  split; [|split; [|split]].
  - intros c i k. induction k as [|k IH]; [reflexivity|].
    rewrite Nat.iter_succ, IH, Nat.odd_succ.
    unfold IndexTsxCards.click. cbn. rewrite <- Nat.negb_odd. reflexivity.
  - intros c i k. induction k as [|k IH]; [reflexivity|].
    rewrite Nat.iter_succ, IH, Nat.odd_succ.
    unfold Part000Cards.click. cbn. rewrite <- Nat.negb_odd. reflexivity.
  - intros [d t f fl]. unfold IndexTsxCards.click. cbn.
    rewrite negb_involutive. reflexivity.
  - intros [d r p l t f fl] H. cbn in H. subst p.
    unfold Part000Cards.click. cbn. rewrite negb_involutive. reflexivity.
Qed.

Lemma card_clicks_witness :
  let el := Part000Cards.click (Part000Cards.createCard (card "A" "B") 0) in
  Part000Cards.aria_pressed el = boolToString (Part000Cards.flipped el)
  /\ Part000Cards.click (Part000Cards.click el) = el.
Proof.
  intros el. split; [reflexivity|].
  exact (proj2 (proj2 (proj2 card_clicks)) el eq_refl).
Defined.
